(** * BLE notification-throughput peripheral: a model of [src/main.c]

    The firmware is a Zephyr application made of a handful of callbacks
    (connect, disconnect, MTU exchange, CCC write, command write) and one
    thread that pumps a counter pattern out of a GATT notification as fast
    as the link takes it.  The file-scope variables of [main.c] become one
    record, every callback becomes a function on that record, and every call
    into the Bluetooth stack is appended to a log together with the value
    the stack returned for it.  The [printk] diagnostics are left out: they
    change no variable and call nothing the firmware listens to. *)

From Stdlib Require Import ZArith Lia Bool.
From Stdlib Require Strings.String.
From stdpp Require Import base list.

Local Open Scope Z_scope.

(** ** C integer types *)

Module C.

Definition u8 (x : Z) : Z := x mod 2 ^ 8.
Definition u16 (x : Z) : Z := x mod 2 ^ 16.
Definition u32 (x : Z) : Z := x mod 2 ^ 32.

(** [size_t] of the 32-bit Cortex-M targets the sample is built for. *)
Definition size_t (x : Z) : Z := x mod 2 ^ 32.

Definition UINT16_MAX : Z := 65535.

End C.

(** ** The part of the Zephyr Bluetooth API the firmware calls *)

Module Zephyr.

(** [struct bt_conn *]: a non-NULL connection object. *)
Definition conn := nat.

Definition ENODEV : Z := 19.
Definition BT_HCI_ERR_UNKNOWN_CONN_ID : Z := 0x02.
Definition BT_HCI_ERR_REMOTE_USER_TERM_CONN : Z := 0x13.
Definition BT_GATT_CCC_NOTIFY : Z := 0x0001.
Definition BT_LE_ADV_OPT_CONNECTABLE : Z := 1.
Definition BT_LE_ADV_OPT_ONE_TIME : Z := 2.
Definition BT_GAP_ADV_FAST_INT_MIN_2 : Z := 0x00a0.
Definition BT_GAP_ADV_FAST_INT_MAX_2 : Z := 0x00f0.
Definition BT_DATA_FLAGS : Z := 0x01.
Definition BT_DATA_UUID128_ALL : Z := 0x07.
Definition BT_DATA_NAME_COMPLETE : Z := 0x09.
Definition BT_LE_AD_GENERAL : Z := 0x02.
Definition BT_LE_AD_NO_BREDR : Z := 0x04.

Record bt_le_adv_param := BT_LE_ADV_PARAM {
  options : Z;
  interval_min : Z;
  interval_max : Z;
  peer : option conn
}.

Record bt_data := BT_DATA {
  data_type : Z;
  data_bytes : list Z
}.

(** One call into the stack.  A notification carries the fragment as the
    code passes it (offset of [frag] from the start of the caller's
    buffer, and [frag_len]) and the bytes that view covers. *)
Inductive call :=
| bt_enable
| bt_gatt_cb_register
| bt_gatt_service_register
| bt_le_adv_start (param : bt_le_adv_param) (ad sd : list bt_data)
| bt_conn_ref (c : conn)
| bt_conn_unref (c : conn)
| bt_conn_get_info (c : conn)
| bt_conn_disconnect (c : conn) (reason : Z)
| bt_gatt_notify (c : conn) (attr : nat) (frag frag_len : Z) (payload : list Z)
| k_msleep (ms : Z).

(** The log: each call with the value the stack returned. *)
Definition history := list (call * Z).

End Zephyr.

Import C Zephyr.

(** ** File-scope state of [main.c] *)

Record state := mkState {
  data_length_req : bool;
  test_ready : bool;
  m_notif_enabled : bool;
  m_notif_send : bool;
  m_mtu : Z;
  default_conn : option conn;
  m_msg_buffer : list Z;
  m_msg_idx_cnt : Z;
  calls : history
}.

Definition set_test_ready (b : bool) (s : state) : state :=
  mkState (data_length_req s) b (m_notif_enabled s) (m_notif_send s) (m_mtu s)
          (default_conn s) (m_msg_buffer s) (m_msg_idx_cnt s) (calls s).

Definition set_m_notif_enabled (b : bool) (s : state) : state :=
  mkState (data_length_req s) (test_ready s) b (m_notif_send s) (m_mtu s)
          (default_conn s) (m_msg_buffer s) (m_msg_idx_cnt s) (calls s).

Definition set_m_notif_send (b : bool) (s : state) : state :=
  mkState (data_length_req s) (test_ready s) (m_notif_enabled s) b (m_mtu s)
          (default_conn s) (m_msg_buffer s) (m_msg_idx_cnt s) (calls s).

Definition set_m_mtu (v : Z) (s : state) : state :=
  mkState (data_length_req s) (test_ready s) (m_notif_enabled s) (m_notif_send s) v
          (default_conn s) (m_msg_buffer s) (m_msg_idx_cnt s) (calls s).

Definition set_default_conn (c : option conn) (s : state) : state :=
  mkState (data_length_req s) (test_ready s) (m_notif_enabled s) (m_notif_send s)
          (m_mtu s) c (m_msg_buffer s) (m_msg_idx_cnt s) (calls s).

Definition set_m_msg_buffer (b : list Z) (s : state) : state :=
  mkState (data_length_req s) (test_ready s) (m_notif_enabled s) (m_notif_send s)
          (m_mtu s) (default_conn s) b (m_msg_idx_cnt s) (calls s).

Definition set_m_msg_idx_cnt (v : Z) (s : state) : state :=
  mkState (data_length_req s) (test_ready s) (m_notif_enabled s) (m_notif_send s)
          (m_mtu s) (default_conn s) (m_msg_buffer s) v (calls s).

Definition set_calls (h : history) (s : state) : state :=
  mkState (data_length_req s) (test_ready s) (m_notif_enabled s) (m_notif_send s)
          (m_mtu s) (default_conn s) (m_msg_buffer s) (m_msg_idx_cnt s) h.

(** The variables of the firmware itself, without the log. *)
Definition same_vars (s t : state) : Prop :=
  data_length_req s = data_length_req t /\
  test_ready s = test_ready t /\
  m_notif_enabled s = m_notif_enabled t /\
  m_notif_send s = m_notif_send t /\
  m_mtu s = m_mtu t /\
  default_conn s = default_conn t /\
  m_msg_buffer s = m_msg_buffer t /\
  m_msg_idx_cnt s = m_msg_idx_cnt t.

(** The connection, MTU and flag variables: everything but the log, the
    message buffer and the pattern counter. *)
Definition same_link (s t : state) : Prop :=
  data_length_req s = data_length_req t /\
  test_ready s = test_ready t /\
  m_notif_enabled s = m_notif_enabled t /\
  m_notif_send s = m_notif_send t /\
  m_mtu s = m_mtu t /\
  default_conn s = default_conn t.

(** ** A state monad for the callbacks *)

Definition M (A : Type) : Type := state -> A * state.

Definition ret {A} (a : A) : M A := fun s => (a, s).

Definition bind {A B} (m : M A) (k : A -> M B) : M B :=
  fun s => let (a, s') := m s in k a s'.

Definition get {A} (f : state -> A) : M A := fun s => (f s, s).

Definition put (f : state -> state) : M unit := fun s => (tt, f s).

Declare Scope fw_scope.
Delimit Scope fw_scope with fw.
Notation "'let*' x ':=' m 'in' k" := (bind m (fun x => k))
  (at level 10, x pattern, k at level 200) : fw_scope.
Notation "'do' m 'then' k" := (bind m (fun _ => k))
  (at level 10, k at level 200) : fw_scope.

(** Outcome of the code that loops: it returned, it is still looping when
    the fuel ran out, or it wrote past the end of [m_msg_buffer] (undefined
    behaviour in C; the model stops there). *)
Inductive result (A : Type) : Type :=
| Done (a : A) (s : state)
| Running (s : state)
| OutOfBounds (i : Z) (s : state).
Arguments Done {A} a s.
Arguments Running {A} s.
Arguments OutOfBounds {A} i s.

Definition state_of {A} (r : result A) : state :=
  match r with
  | Done _ s => s
  | Running s => s
  | OutOfBounds _ s => s
  end.

(** The calls made on the way from [s] to [s']. *)
Definition issued (s s' : state) : history :=
  drop (length (calls s)) (calls s').

Ltac run_monad :=
  unfold bind, get, put, ret; simpl.

Definition MTU_OVERHEAD : Z := 3.

Definition SERVICE_UUID_BYTES : list Z :=
  [0xf4; 0xec; 0x36; 0x41; 0xde; 0x4b; 0x45; 0xa7;
   0xf8; 0x4a; 0xbd; 0x54; 0x64; 0xe4; 0xb3; 0x1f].

(** The bytes a pointer [data + off] with length [len] covers. *)
Definition view (data : list Z) (off len : Z) : list Z :=
  take (Z.to_nat len) (drop (Z.to_nat off) data).

(** ** The pattern generator

    Body of the [for] loop of [notify_thread]: the byte stored for a given
    counter value. *)
Definition pattern_byte (cnt : Z) : Z :=
  let shift := if Z.land cnt 1 =? 0 then 1 else 9 in
  u8 (Z.land (Z.shiftr cnt shift) 0xFF).

(** The [if] that follows the loop. *)
Definition wrap_counter (cnt : Z) : Z :=
  if Z.shiftl UINT16_MAX 1 <? cnt then u32 (cnt mod Z.shiftl UINT16_MAX 1) else cnt.

(** The bytes of [n] loop iterations and the counter they leave. *)
Fixpoint generate (n : nat) (cnt : Z) : list Z * Z :=
  match n with
  | O => ([], cnt)
  | S n' =>
      let (bytes, cnt') := generate n' (u32 (cnt + 1)) in
      (pattern_byte cnt :: bytes, cnt')
  end.

(** One buffer of the generator: the loop, then the wrap. *)
Definition NextBuffer (len : nat) (cnt : Z) : list Z * Z :=
  let (bytes, cnt') := generate len cnt in (bytes, wrap_counter cnt').

Definition ceil_div (a b : Z) : Z := (a + b - 1) / b.

(** The log entry of a notification of the fragment [(offset, length)] of
    [data] that the stack took. *)
Definition accepted (c : conn) (attr : nat) (data : list Z) (fr : Z * Z) : call * Z :=
  (bt_gatt_notify c attr (fst fr) (snd fr) (view data (fst fr) (snd fr)), 0).

Section Firmware.

(** Kconfig values; [prj.conf] is not part of the sources. *)
Variable CONFIG_BT_L2CAP_TX_MTU : Z.
Variable CONFIG_BT_DEVICE_NAME : list Z.

(** What the stack answers to a call, given everything that was called
    before.  Any behaviour the stack shows along one run is some such
    function. *)
Variable stack : history -> call -> Z.

Local Open Scope fw_scope.

Definition invoke (c : call) : M Z :=
  fun s =>
    let r := stack (calls s) c in
    (r, set_calls (calls s ++ [(c, r)]) s).

(** [write_cmd_cb]: [buf] holds the bytes [dptr] points at. *)
Definition write_cmd_cb (buf : list Z) (len : Z) : M Z :=
  let dptr := fun i : nat => nth i buf 0 in
  do (if 2 <=? len then
        if dptr 0%nat =? 0x01 then
          put (set_m_notif_send (dptr 1%nat =? 0x01))
        else ret tt
      else ret tt)
  then ret len.

Definition notif_ccc_cb (value : Z) : M unit :=
  put (set_m_notif_enabled
         (if Z.land value BT_GATT_CCC_NOTIFY =? 0 then false else true)).

(** The [while] loop of [send_data]; one unit of fuel per iteration. *)
Fixpoint send_loop (fuel : nat) (c : conn) (attr : nat) (data : list Z)
    (mtu frag frag_len remaining_len err : Z) (s : state) : result Z :=
  if (err =? 0) && (0 <? remaining_len) then
    match fuel with
    | O => Running s
    | S fuel' =>
        let frag := frag + frag_len in
        let '(frag_len, remaining_len) :=
          if remaining_len <=? mtu - MTU_OVERHEAD
          then (remaining_len, 0)
          else (frag_len, u16 (remaining_len - frag_len)) in
        let '(err, s) :=
          invoke (bt_gatt_notify c attr frag frag_len (view data frag frag_len)) s in
        send_loop fuel' c attr data mtu frag frag_len remaining_len err s
    end
  else Done err s.

Definition send_data (fuel : nat) (data : list Z) (len : Z) (attr : nat)
    (s : state) : result Z :=
  match default_conn s with
  | None => Done (- ENODEV) s
  | Some c =>
      let mtu := m_mtu s in
      if len <=? mtu - MTU_OVERHEAD then
        let '(err, s) := invoke (bt_gatt_notify c attr 0 len (view data 0 len)) s in
        Done err s
      else
        let frag := 0 in
        let frag_len := u16 (mtu - MTU_OVERHEAD) in
        let remaining_len := u16 (len - frag_len) in
        let '(err, s) :=
          invoke (bt_gatt_notify c attr frag frag_len (view data frag frag_len)) s in
        send_loop fuel c attr data mtu frag frag_len remaining_len err s
  end.

(** [connected]: both failure branches only print. *)
Definition connected (c : conn) (hci_err : Z) : M unit :=
  if negb (hci_err =? 0) then
    if hci_err =? BT_HCI_ERR_UNKNOWN_CONN_ID then ret tt else ret tt
  else
    let* dc := get default_conn in
    match dc with
    | Some _ =>
        do invoke (bt_conn_disconnect c BT_HCI_ERR_REMOTE_USER_TERM_CONN)
        then ret tt
    | None =>
        do invoke (bt_conn_ref c) then
        do put (set_default_conn (Some c)) then
        let* err := invoke (bt_conn_get_info c) in
        if negb (err =? 0) then ret tt
        else put (set_m_mtu 23)
    end.

Definition adv_param : bt_le_adv_param :=
  BT_LE_ADV_PARAM (Z.lor BT_LE_ADV_OPT_CONNECTABLE BT_LE_ADV_OPT_ONE_TIME)
                  BT_GAP_ADV_FAST_INT_MIN_2 BT_GAP_ADV_FAST_INT_MAX_2 None.

Definition ad : list bt_data :=
  [BT_DATA BT_DATA_FLAGS [Z.lor BT_LE_AD_GENERAL BT_LE_AD_NO_BREDR];
   BT_DATA BT_DATA_NAME_COMPLETE CONFIG_BT_DEVICE_NAME].

Definition sd : list bt_data :=
  [BT_DATA BT_DATA_UUID128_ALL SERVICE_UUID_BYTES].

Definition adv_start : M unit :=
  let* err := invoke (bt_le_adv_start adv_param ad sd) in
  if negb (err =? 0) then ret tt else ret tt.

Definition disconnected (c : conn) (reason : Z) : M unit :=
  do put (set_test_ready false) then
  let* dc := get default_conn in
  do match dc with
     | Some d =>
         do invoke (bt_conn_unref d) then put (set_default_conn None)
     | None => ret tt
     end then
  let* err := invoke (bt_conn_get_info c) in
  if negb (err =? 0) then ret tt
  else adv_start.

Definition mtu_updated (c : conn) (tx rx : Z) : M unit :=
  do put (set_m_mtu (u16 tx)) then
  let* m := get m_mtu in
  if CONFIG_BT_L2CAP_TX_MTU <=? m
  then put (set_m_mtu (u16 CONFIG_BT_L2CAP_TX_MTU))
  else ret tt.

(** The [for] loop of [notify_thread]: [n] iterations left, index [i].
    A store to [m_msg_buffer[i]] with [i] past the end of the array is where
    the model stops with [OutOfBounds]. *)
Fixpoint fill (n : nat) (i : Z) (s : state) : result unit :=
  match n with
  | O => Done tt s
  | S n' =>
      let cnt := m_msg_idx_cnt s in
      if i <? Z.of_nat (length (m_msg_buffer s)) then
        fill n' (i + 1)
             (set_m_msg_idx_cnt (u32 (cnt + 1))
                (set_m_msg_buffer
                   (<[Z.to_nat i := pattern_byte cnt]> (m_msg_buffer s)) s))
      else OutOfBounds i s
  end.

(** One turn of the [while (1)] of [notify_thread].  The fuel handed to
    [send_data] is the length of the buffer, which the loop of [send_data]
    cannot outlast while a fragment has at least one byte. *)
Definition notify_thread (s : state) : result unit :=
  if m_notif_enabled s && m_notif_send s then
    let len := size_t (m_mtu s - MTU_OVERHEAD) in
    match fill (Z.to_nat len) 0 s with
    | Done _ s =>
        let s := set_m_msg_idx_cnt (wrap_counter (m_msg_idx_cnt s)) s in
        match send_data (Z.to_nat (u16 len)) (m_msg_buffer s) (u16 len) 3 s with
        | Done _ s => Done tt s
        | Running s => Running s
        | OutOfBounds i s => OutOfBounds i s
        end
    | Running s => Running s
    | OutOfBounds i s => OutOfBounds i s
    end
  else
    let '(_, s) := invoke (k_msleep 100) s in Done tt s.

Definition main : M Z :=
  let* err := invoke bt_enable in
  if negb (err =? 0) then ret 0
  else
    do invoke bt_gatt_cb_register then
    do invoke bt_gatt_service_register then
    do adv_start then
    ret 0.

(** The variables as their initialisers leave them. *)
Definition initial : state :=
  {| data_length_req := false;
     test_ready := false;
     m_notif_enabled := false;
     m_notif_send := false;
     m_mtu := 23;
     default_conn := None;
     m_msg_buffer := replicate (Z.to_nat (CONFIG_BT_L2CAP_TX_MTU - MTU_OVERHEAD)) 0;
     m_msg_idx_cnt := 0;
     calls := [] |}.

(** ** Runs: the callbacks and the pump thread interleaved *)

Inductive event :=
| Connect (c : conn) (hci_err : Z)
| Disconnect (c : conn) (reason : Z)
| MtuExchange (c : conn) (tx rx : Z)
| CccWrite (value : Z)
| CmdWrite (buf : list Z)
| Pump.

Definition handle (e : event) (s : state) : result unit :=
  match e with
  | Connect c hci_err => let '(_, s) := connected c hci_err s in Done tt s
  | Disconnect c reason => let '(_, s) := disconnected c reason s in Done tt s
  | MtuExchange c tx rx => let '(_, s) := mtu_updated c tx rx s in Done tt s
  | CccWrite value => let '(_, s) := notif_ccc_cb value s in Done tt s
  | CmdWrite buf =>
      let '(_, s) := write_cmd_cb buf (Z.of_nat (length buf)) s in Done tt s
  | Pump => notify_thread s
  end.

Fixpoint run (es : list event) (s : state) : result unit :=
  match es with
  | [] => Done tt s
  | e :: es' =>
      match handle e s with
      | Done _ s' => run es' s'
      | r => r
      end
  end.

Definition boot : state := snd (main initial).

(** A central connects, subscribes and switches streaming on; the pump then
    takes [n] turns. *)
Definition streaming_events (n : nat) : list event :=
  [Connect 1%nat 0; CccWrite BT_GATT_CCC_NOTIFY; CmdWrite [0x01; 0x01]]
    ++ replicate n Pump.

(** An MTU exchange as the ATT protocol allows it: the negotiated size is a
    16-bit value of at least 23, the default ATT MTU. *)
Definition att_conformant (e : event) : Prop :=
  match e with
  | MtuExchange _ tx _ => 23 <= tx <= 65535
  | _ => True
  end.

(** What holds of the variables between events. *)
Definition consistent (s : state) : Prop :=
  23 <= m_mtu s <= CONFIG_BT_L2CAP_TX_MTU /\
  length (m_msg_buffer s) = Z.to_nat (CONFIG_BT_L2CAP_TX_MTU - MTU_OVERHEAD) /\
  0 <= m_msg_idx_cnt s <= Z.shiftl UINT16_MAX 1.

End Firmware.



(** ** Stacks and states for the examples *)

(** A stack that takes every call. *)
Definition takes_all : history -> call -> Z := fun _ _ => 0.

(** A stack whose connection-info query fails with [-EINVAL]. *)
Definition info_query_fails : history -> call -> Z :=
  fun _ cl => match cl with bt_conn_get_info _ => -22 | _ => 0 end.

(** A stack that answers [code] to the call made when [k] calls are in the
    log, and 0 to every other. *)
Definition refuses_at (k : nat) (code : Z) : history -> call -> Z :=
  fun h _ => if Nat.eqb (length h) k then code else 0.

(** Connection 1 stored, the given MTU, a 247-byte configured maximum. *)
Definition linked (mtu : Z) : state :=
  set_m_mtu mtu (set_default_conn (Some 1%nat) (initial 247)).

(** The same with the peer subscribed and streaming switched on. *)
Definition pumping (mtu : Z) : state :=
  set_m_notif_send true (set_m_notif_enabled true (linked mtu)).

(** Lengths of the notifications in a log. *)
Definition notification_sizes (h : history) : list Z :=
  omap (fun e => match fst e with
                 | bt_gatt_notify _ _ _ frag_len _ => Some frag_len
                 | _ => None
                 end) h.

(** Payloads of the notifications in a log, in the order they were issued. *)
Definition notification_payloads (h : history) : list (list Z) :=
  omap (fun e => match fst e with
                 | bt_gatt_notify _ _ _ _ payload => Some payload
                 | _ => None
                 end) h.

(** The bytes the stack took: payloads of the notifications it answered
    with 0, concatenated in the order they were issued. *)
Definition delivered (h : history) : list Z :=
  concat (omap (fun e => match e with
                         | (bt_gatt_notify _ _ _ _ payload, r) =>
                             if r =? 0 then Some payload else None
                         | _ => None
                         end) h).

(** ** Diagnostics *)

Module Diagnostics.

Import Stdlib.Strings.String.

Definition BT_GAP_LE_PHY_1M : Z := 1.
Definition BT_GAP_LE_PHY_2M : Z := 2.
Definition BT_GAP_LE_PHY_CODED : Z := 4.

(** [phy2str]: the [switch] tests its cases in order; the labels are
    distinct constants. *)
Definition phy2str (phy : Z) : string :=
  if (phy =? 0)%Z then "No packets"%string
  else if (phy =? BT_GAP_LE_PHY_1M)%Z then "LE 1M"%string
  else if (phy =? BT_GAP_LE_PHY_2M)%Z then "LE 2M"%string
  else if (phy =? BT_GAP_LE_PHY_CODED)%Z then "LE Coded"%string
  else "Unknown"%string.

End Diagnostics.

(** ** Basic facts *)

Lemma u16_id x : 0 <= x < 65536 -> u16 x = x.
Proof. intros H. unfold u16. apply Z.mod_small. lia. Qed.

Lemma u32_id x : 0 <= x < 4294967296 -> u32 x = x.
Proof. intros H. unfold u32. apply Z.mod_small. lia. Qed.

Lemma size_t_id x : 0 <= x < 4294967296 -> size_t x = x.
Proof. intros H. unfold size_t. apply Z.mod_small. lia. Qed.

Lemma same_vars_refl s : same_vars s s.
Proof. unfold same_vars. tauto. Qed.

Lemma same_vars_trans s t u : same_vars s t -> same_vars t u -> same_vars s u.
Proof. unfold same_vars. intuition congruence. Qed.

Lemma same_vars_set_calls h s : same_vars s (set_calls h s).
Proof. unfold same_vars. simpl. tauto. Qed.

Section Callbacks.

Variable CONFIG_BT_L2CAP_TX_MTU : Z.
Variable CONFIG_BT_DEVICE_NAME : list Z.
Variable stack : history -> call -> Z.

Lemma invoke_log c s :
  invoke stack c s = (stack (calls s) c, set_calls (calls s ++ [(c, stack (calls s) c)]) s).
Proof. reflexivity. Qed.

(** C7.  A control write of at least two bytes whose first byte is 0x01
    stores in the streaming flag whether the second byte is 0x01 (true for
    0x01, false for anything else) and touches nothing else; a shorter write,
    or one with another first byte, changes nothing at all; the callback
    always returns the length it was given. *)
Theorem write_cmd_cb_streaming_flag (buf : list Z) (s : state) :
  fst (write_cmd_cb buf (Z.of_nat (length buf)) s) = Z.of_nat (length buf) /\
  (2 <= Z.of_nat (length buf) -> nth 0 buf 0 = 0x01 ->
   snd (write_cmd_cb buf (Z.of_nat (length buf)) s)
   = set_m_notif_send (nth 1 buf 0 =? 0x01) s /\
   (m_notif_send (snd (write_cmd_cb buf (Z.of_nat (length buf)) s)) = true
    <-> nth 1 buf 0 = 0x01)) /\
  (Z.of_nat (length buf) < 2 \/ nth 0 buf 0 <> 0x01 ->
   snd (write_cmd_cb buf (Z.of_nat (length buf)) s) = s).
Proof.
  unfold write_cmd_cb, bind, put, ret.
  split; [| split].
  - destruct (2 <=? _); [destruct (nth 0 buf 0 =? 1) |]; reflexivity.
  - intros Hlen Hop.
    apply Z.leb_le in Hlen. rewrite Hlen.
    apply Z.eqb_eq in Hop. rewrite Hop. simpl.
    split; [reflexivity |]. apply Z.eqb_eq.
  - intros [Hshort | Hop].
    + apply Z.leb_gt in Hshort. rewrite Hshort. reflexivity.
    + apply Z.eqb_neq in Hop. rewrite Hop.
      destruct (2 <=? _); reflexivity.
Qed.


(** ** Connection callbacks *)

(** C6.  A successful connect event that arrives while a connection is
    stored makes exactly one call into the stack, the termination of the new
    connection ([bt_conn_disconnect] with reason
    [BT_HCI_ERR_REMOTE_USER_TERM_CONN], the code the local host gives when it
    ends a link), and leaves the stored connection, the MTU and every flag as
    they were. *)
Theorem connected_second_connection_rejected (c d : conn) (s : state) :
  default_conn s = Some d ->
  same_vars s (snd (connected stack c 0 s)) /\
  default_conn (snd (connected stack c 0 s)) = Some d /\
  issued s (snd (connected stack c 0 s))
  = [(bt_conn_disconnect c BT_HCI_ERR_REMOTE_USER_TERM_CONN,
      stack (calls s) (bt_conn_disconnect c BT_HCI_ERR_REMOTE_USER_TERM_CONN))].
Proof.
  intros Hd. unfold connected, issued. run_monad. rewrite Hd. simpl.
  split; [apply same_vars_set_calls |]. split; [exact Hd |].
  apply drop_app_length.
Qed.

Lemma adv_start_log s :
  adv_start CONFIG_BT_DEVICE_NAME stack s
  = (tt, set_calls
           (calls s ++
              [(bt_le_adv_start adv_param (ad CONFIG_BT_DEVICE_NAME) sd,
                stack (calls s)
                  (bt_le_adv_start adv_param (ad CONFIG_BT_DEVICE_NAME) sd))]) s).
Proof.
  unfold adv_start. run_monad.
  destruct (negb _); reflexivity.
Qed.

(** C5, as the code has it.  Whatever the reason, a disconnect event clears
    [test_ready], releases the stored connection reference if there is one,
    and queries the connection info; it restarts advertising, with the very
    parameters [main] used at boot, when that query succeeds, and makes no
    further call when the query fails. *)
Theorem disconnected_restarts_when_info_ok (c : conn) (reason : Z) (s : state) :
  exists released info_err restart,
    test_ready (snd (disconnected CONFIG_BT_DEVICE_NAME stack c reason s)) = false /\
    default_conn (snd (disconnected CONFIG_BT_DEVICE_NAME stack c reason s)) = None /\
    issued s (snd (disconnected CONFIG_BT_DEVICE_NAME stack c reason s))
    = released ++ [(bt_conn_get_info c, info_err)] ++ restart /\
    (forall d, default_conn s = Some d ->
               released = [(bt_conn_unref d, stack (calls s) (bt_conn_unref d))]) /\
    (default_conn s = None -> released = []) /\
    (info_err = 0 ->
     exists r, restart
               = [(bt_le_adv_start adv_param (ad CONFIG_BT_DEVICE_NAME) sd, r)]) /\
    (info_err <> 0 -> restart = []) /\
    (stack [] bt_enable = 0 ->
     exists r, last (calls (boot CONFIG_BT_L2CAP_TX_MTU CONFIG_BT_DEVICE_NAME stack))
               = Some (bt_le_adv_start adv_param (ad CONFIG_BT_DEVICE_NAME) sd, r)).
Proof.
  assert (Hboot : stack [] bt_enable = 0 ->
     exists r, last (calls (boot CONFIG_BT_L2CAP_TX_MTU CONFIG_BT_DEVICE_NAME stack))
               = Some (bt_le_adv_start adv_param (ad CONFIG_BT_DEVICE_NAME) sd, r)).
  { intros He. unfold boot, main. run_monad. rewrite He. simpl.
    rewrite adv_start_log. simpl. eexists. reflexivity. }
  unfold disconnected, issued. run_monad.
  destruct (default_conn s) as [d |] eqn:Hd; simpl.
  - set (h1 := calls s ++ [(bt_conn_unref d, stack (calls s) (bt_conn_unref d))]).
    exists [(bt_conn_unref d, stack (calls s) (bt_conn_unref d))],
           (stack h1 (bt_conn_get_info c)).
    destruct (stack h1 (bt_conn_get_info c) =? 0) eqn:Hinfo; simpl.
    + rewrite adv_start_log. simpl. fold h1.
      exists [(bt_le_adv_start adv_param (ad CONFIG_BT_DEVICE_NAME) sd,
               stack (h1 ++ [(bt_conn_get_info c, stack h1 (bt_conn_get_info c))])
                 (bt_le_adv_start adv_param (ad CONFIG_BT_DEVICE_NAME) sd))].
      split; [reflexivity |]. split; [reflexivity |].
      split; [subst h1; rewrite <- !app_assoc; apply drop_app_length |].
      split; [intros d' Hd'; congruence |].
      split; [discriminate |].
      split; [intros _; eexists; reflexivity |].
      split; [apply Z.eqb_eq in Hinfo; intros Hne; contradiction | exact Hboot].
    + exists [].
      split; [reflexivity |]. split; [reflexivity |].
      split; [subst h1; rewrite <- !app_assoc; apply drop_app_length |].
      split; [intros d' Hd'; congruence |].
      split; [discriminate |].
      split; [apply Z.eqb_neq in Hinfo; intros H0; contradiction |].
      split; [reflexivity | exact Hboot].
  - exists [], (stack (calls s) (bt_conn_get_info c)).
    destruct (stack (calls s) (bt_conn_get_info c) =? 0) eqn:Hinfo; simpl.
    + rewrite adv_start_log. simpl.
      exists [(bt_le_adv_start adv_param (ad CONFIG_BT_DEVICE_NAME) sd,
               stack (calls s ++
                        [(bt_conn_get_info c, stack (calls s) (bt_conn_get_info c))])
                 (bt_le_adv_start adv_param (ad CONFIG_BT_DEVICE_NAME) sd))].
      split; [reflexivity |]. split; [exact Hd |].
      split; [rewrite <- !app_assoc; apply drop_app_length |].
      split; [discriminate |].
      split; [reflexivity |].
      split; [intros _; eexists; reflexivity |].
      split; [apply Z.eqb_eq in Hinfo; intros Hne; contradiction | exact Hboot].
    + exists [].
      split; [reflexivity |]. split; [exact Hd |].
      split; [apply drop_app_length |].
      split; [discriminate |].
      split; [reflexivity |].
      split; [apply Z.eqb_neq in Hinfo; intros H0; contradiction |].
      split; [reflexivity | exact Hboot].
Qed.

(** ** Fragmenting sender *)

Lemma view_app data off a b :
  0 <= off -> 0 <= a -> 0 <= b ->
  view data off (a + b) = view data off a ++ view data (off + a) b.
Proof.
  intros Hoff Ha Hb. unfold view.
  rewrite !Z2Nat.inj_add by lia.
  rewrite <- drop_drop. apply eq_sym, take_take_drop.
Qed.

Lemma view_all data : view data 0 (Z.of_nat (length data)) = data.
Proof.
  unfold view. simpl. rewrite Nat2Z.id. apply firstn_all.
Qed.

Lemma view_length data off len :
  0 <= off -> 0 <= len -> off + len <= Z.of_nat (length data) ->
  Z.of_nat (length (view data off len)) = len.
Proof.
  intros Hoff Hlen Hin. unfold view.
  rewrite length_take, length_drop. lia.
Qed.

Lemma ceil_div_zero u : 1 <= u -> ceil_div 0 u = 0.
Proof. intros Hu. unfold ceil_div. apply Z.div_small. lia. Qed.

Lemma ceil_div_one r u : 0 < r <= u -> ceil_div r u = 1.
Proof.
  intros Hr. unfold ceil_div.
  replace (r + u - 1) with ((r - 1) + 1 * u) by lia.
  rewrite Z.div_add by lia. rewrite Z.div_small by lia. reflexivity.
Qed.

Lemma ceil_div_step r u : 1 <= u -> ceil_div r u = ceil_div (r - u) u + 1.
Proof.
  intros Hu. unfold ceil_div.
  replace (r + u - 1) with ((r - u + u - 1) + 1 * u) by lia.
  apply Z.div_add. lia.
Qed.

Lemma send_loop_stops_on_error fuel c attr data mtu frag frag_len remaining_len err s :
  err <> 0 ->
  send_loop stack fuel c attr data mtu frag frag_len remaining_len err s = Done err s.
Proof.
  intros Herr. apply Z.eqb_neq in Herr.
  destruct fuel; simpl; rewrite Herr; reflexivity.
Qed.

Lemma send_loop_stops_when_sent fuel c attr data mtu frag frag_len err s :
  send_loop stack fuel c attr data mtu frag frag_len 0 err s = Done err s.
Proof.
  destruct fuel; simpl; rewrite andb_false_r; reflexivity.
Qed.

Lemma send_loop_accepted c attr data mtu :
  1 <= mtu - MTU_OVERHEAD ->
  (forall h f l p, stack h (bt_gatt_notify c attr f l p) = 0) ->
  forall fuel frag r s,
    0 <= frag -> 0 <= r <= 65535 -> (Z.to_nat r <= fuel)%nat ->
    exists s' frags,
      send_loop stack fuel c attr data mtu frag (mtu - MTU_OVERHEAD) r 0 s = Done 0 s' /\
      same_vars s s' /\
      calls s' = calls s ++ map (accepted c attr data) frags /\
      Z.of_nat (length frags) = ceil_div r (mtu - MTU_OVERHEAD) /\
      Forall (fun fr => 0 < snd fr <= mtu - MTU_OVERHEAD) frags /\
      (forall i fr, frags !! i = Some fr ->
                    fst fr = frag + (mtu - MTU_OVERHEAD) + Z.of_nat i * (mtu - MTU_OVERHEAD)) /\
      concat (map (fun fr => view data (fst fr) (snd fr)) frags)
      = view data (frag + (mtu - MTU_OVERHEAD)) r.
Proof.
  intros Hu Hok. set (u := mtu - MTU_OVERHEAD) in *.
  induction fuel as [| fuel IH]; intros frag r s Hfrag Hr Hfuel.
  - assert (r = 0) by lia. subst r.
    exists s, []. simpl.
    split; [reflexivity |]. split; [apply same_vars_refl |].
    split; [rewrite app_nil_r; reflexivity |].
    split; [rewrite ceil_div_zero by lia; reflexivity |].
    split; [constructor |].
    split; [intros i fr Hi; rewrite lookup_nil in Hi; discriminate |].
    unfold view. simpl. reflexivity.
  - destruct (Z.eq_dec r 0) as [-> | Hr0].
    { exists s, []. rewrite send_loop_stops_when_sent. simpl.
      split; [reflexivity |]. split; [apply same_vars_refl |].
      split; [rewrite app_nil_r; reflexivity |].
      split; [rewrite ceil_div_zero by lia; reflexivity |].
      split; [constructor |].
      split; [intros i fr Hi; rewrite lookup_nil in Hi; discriminate |].
      unfold view. simpl. reflexivity. }
    simpl.
    assert (Hpos : (0 <? r) = true) by (apply Z.ltb_lt; lia).
    rewrite Hpos. simpl. fold u.
    destruct (r <=? u) eqn:Hlast.
    + apply Z.leb_le in Hlast.
      unfold invoke. rewrite Hok. rewrite send_loop_stops_when_sent.
      eexists. exists [(frag + u, r)]. simpl.
      split; [reflexivity |]. split; [apply same_vars_set_calls |].
      split; [reflexivity |].
      split; [rewrite ceil_div_one by lia; reflexivity |].
      split; [repeat constructor; simpl; lia |].
      split.
      * intros [| i] fr Hi; simpl in Hi; [| rewrite lookup_nil in Hi; discriminate].
        inversion Hi. subst fr. simpl. lia.
      * rewrite app_nil_r. reflexivity.
    + apply Z.leb_gt in Hlast.
      unfold invoke. rewrite Hok.
      rewrite u16_id by lia.
      set (s1 := set_calls _ s).
      destruct (IH (frag + u) (r - u) s1) as (s' & frags & Hrun & Hvars & Hcalls & Hlen & Hall & Hoff & Hcat);
        [lia | lia | lia |].
      exists s', ((frag + u, u) :: frags).
      split; [exact Hrun |].
      split; [apply same_vars_trans with s1; [apply same_vars_set_calls | exact Hvars] |].
      split; [rewrite Hcalls; subst s1; simpl; rewrite <- app_assoc; reflexivity |].
      split; [rewrite (ceil_div_step r u) by lia; rewrite <- Hlen; simpl length; lia |].
      split; [constructor; [simpl; lia | exact Hall] |].
      split.
      * intros [| i] fr Hi; simpl in Hi.
        -- inversion Hi. subst fr. simpl. lia.
        -- apply Hoff in Hi. rewrite Hi. lia.
      * simpl. rewrite Hcat.
        replace r with (u + (r - u)) at 2 by lia.
        rewrite view_app by lia. reflexivity.
Qed.

(** C3, as the code has it.  With a connection stored, an MTU [M] between 23
    and the configured maximum and a stack that takes every fragment,
    [send_data] on a payload of [L] bytes returns 0 after issuing
    [max 1 (ceil (L / (M - 3)))] notifications and nothing else: one (empty)
    notification for [L = 0], [ceil (L / (M - 3))] for every [L >= 1].  Each
    has at most [M - 3] bytes, the i-th starts at offset [i * (M - 3)], they
    are issued in that order, and their bytes concatenated are the payload.
    When [L <= M - 3] the only fragment is the whole payload. *)
Theorem send_data_fragments (fuel : nat) (data : list Z) (attr : nat) (c : conn)
    (s : state) :
  default_conn s = Some c ->
  23 <= m_mtu s <= CONFIG_BT_L2CAP_TX_MTU ->
  CONFIG_BT_L2CAP_TX_MTU <= 65535 ->
  Z.of_nat (length data) <= 65535 ->
  (forall h f l p, stack h (bt_gatt_notify c attr f l p) = 0) ->
  (length data <= fuel)%nat ->
  exists s' frags,
    send_data stack fuel data (Z.of_nat (length data)) attr s = Done 0 s' /\
    same_vars s s' /\
    issued s s' = map (accepted c attr data) frags /\
    Z.of_nat (length frags)
    = Z.max 1 (ceil_div (Z.of_nat (length data)) (m_mtu s - MTU_OVERHEAD)) /\
    Forall (fun fr => 0 <= snd fr <= m_mtu s - MTU_OVERHEAD) frags /\
    (forall i fr, frags !! i = Some fr ->
                  fst fr = Z.of_nat i * (m_mtu s - MTU_OVERHEAD)) /\
    concat (map (fun fr => view data (fst fr) (snd fr)) frags) = data /\
    (Z.of_nat (length data) <= m_mtu s - MTU_OVERHEAD ->
     frags = [(0, Z.of_nat (length data))]).
Proof.
  intros Hc Hmtu Hmax Hlen Hok Hfuel.
  unfold send_data, issued. rewrite Hc.
  set (L := Z.of_nat (length data)) in *.
  set (u := m_mtu s - MTU_OVERHEAD).
  assert (Hu : 20 <= u <= 65532) by (unfold u, MTU_OVERHEAD; lia).
  destruct (L <=? u) eqn:Hone.
  - apply Z.leb_le in Hone.
    unfold invoke. rewrite Hok.
    eexists. exists [(0, L)]. simpl.
    split; [reflexivity |]. split; [apply same_vars_set_calls |].
    split; [apply drop_app_length |].
    split.
    { destruct (Z.eq_dec L 0) as [H0 | H0].
      - rewrite H0, ceil_div_zero by lia. reflexivity.
      - rewrite ceil_div_one by lia. reflexivity. }
    split; [repeat constructor; simpl; lia |].
    split.
    { intros [| i] fr Hi; simpl in Hi; [| rewrite lookup_nil in Hi; discriminate].
      inversion Hi. subst fr. simpl. lia. }
    split; [rewrite app_nil_r; apply view_all | reflexivity].
  - apply Z.leb_gt in Hone.
    unfold invoke. rewrite Hok.
    rewrite (u16_id u) by lia. rewrite u16_id by lia.
    set (s1 := set_calls _ s).
    destruct (send_loop_accepted c attr data (m_mtu s) ltac:(fold u; lia) Hok
                fuel 0 (L - u) s1)
      as (s' & frags & Hrun & Hvars & Hcalls & Hcount & Hall & Hoff & Hcat);
      [lia | lia | lia |].
    fold u in Hrun, Hcount, Hall, Hoff, Hcat.
    exists s', ((0, u) :: frags).
    split; [exact Hrun |].
    split; [apply same_vars_trans with s1; [apply same_vars_set_calls | exact Hvars] |].
    split.
    { rewrite Hcalls. subst s1. simpl. rewrite <- app_assoc.
      apply drop_app_length. }
    split.
    { rewrite (ceil_div_step L u) by lia. rewrite <- Hcount. simpl length. lia. }
    split.
    { constructor; [simpl; lia |].
      eapply Forall_impl; [exact Hall |]. simpl. intros fr Hfr. lia. }
    split.
    { intros [| i] fr Hi; simpl in Hi.
      - inversion Hi. subst fr. simpl. lia.
      - apply Hoff in Hi. rewrite Hi. lia. }
    split.
    { simpl. rewrite Hcat. simpl.
      rewrite <- (view_all data) at 3. fold L.
      replace L with (u + (L - u)) at 2 by lia.
      rewrite view_app by lia. reflexivity. }
    intros Hle. lia.
Qed.

Lemma send_loop_log c attr data mtu fuel :
  forall frag frag_len remaining_len err s,
  exists new,
    calls (state_of (send_loop stack fuel c attr data mtu frag frag_len
                       remaining_len err s))
    = calls s ++ new /\
    (forall k cl r, new !! k = Some (cl, r) ->
       exists f l, cl = bt_gatt_notify c attr f l (view data f l)) /\
    (forall k cl r, new !! k = Some (cl, r) -> r <> 0 ->
       send_loop stack fuel c attr data mtu frag frag_len remaining_len err s
       = Done r (state_of (send_loop stack fuel c attr data mtu frag frag_len
                             remaining_len err s)) /\
       length new = S k).
Proof.
  induction fuel as [| fuel IH]; intros frag frag_len remaining_len err s.
  - exists []. simpl.
    destruct ((err =? 0) && (0 <? remaining_len)); simpl;
      (split; [rewrite app_nil_r; reflexivity |]);
      split; intros k cl r Hk; rewrite lookup_nil in Hk; discriminate.
  - simpl.
    destruct ((err =? 0) && (0 <? remaining_len)) eqn:Hgo.
    + destruct (if remaining_len <=? mtu - MTU_OVERHEAD
                then (remaining_len, 0)
                else (frag_len, u16 (remaining_len - frag_len)))
        as [fl rl] eqn:Hnext.
      unfold invoke.
      set (cl1 := bt_gatt_notify c attr (frag + frag_len) fl
                    (view data (frag + frag_len) fl)).
      set (e1 := stack (calls s) cl1).
      set (s1 := set_calls (calls s ++ [(cl1, e1)]) s).
      destruct (IH (frag + frag_len) fl rl e1 s1) as (new & Hcalls & Hnot & Hrej).
      exists ((cl1, e1) :: new).
      split; [rewrite Hcalls; subst s1; simpl; rewrite <- app_assoc; reflexivity |].
      split.
      * intros [| k] cl r Hk; simpl in Hk.
        -- inversion Hk. subst cl1. eauto.
        -- eapply Hnot. exact Hk.
      * intros [| k] cl r Hk Hr; simpl in Hk.
        -- inversion Hk. subst r.
           rewrite send_loop_stops_on_error in * by assumption. simpl in *.
           split; [reflexivity |].
           simpl in Hcalls. subst s1. simpl in Hcalls.
           apply (f_equal length) in Hcalls.
           rewrite !length_app in Hcalls. simpl in *. lia.
        -- destruct (Hrej k cl r Hk Hr) as [Hdone Hlen].
           split; [exact Hdone | simpl; lia].
    + exists []. simpl.
      split; [rewrite app_nil_r; reflexivity |].
      split; intros k cl r Hk; rewrite lookup_nil in Hk; discriminate.
Qed.

(** C8.  Whatever the buffer, the length, the MTU and the fuel: every call
    [send_data] makes is a notification of a fragment, and if the stack
    answers the k-th of them with a non-zero code then [send_data] has
    returned, its return value is that very code, and that notification is
    the last call it made, so no later fragment is sent and none is sent
    again. *)
Theorem send_data_aborts_on_rejection (fuel : nat) (data : list Z) (len : Z)
    (attr : nat) (s : state) (k : nat) (cl : call) (r : Z) :
  issued s (state_of (send_data stack fuel data len attr s)) !! k = Some (cl, r) ->
  r <> 0 ->
  send_data stack fuel data len attr s
  = Done r (state_of (send_data stack fuel data len attr s)) /\
  length (issued s (state_of (send_data stack fuel data len attr s))) = S k /\
  exists c f l,
    default_conn s = Some c /\ cl = bt_gatt_notify c attr f l (view data f l).
Proof.
  unfold send_data, issued.
  destruct (default_conn s) as [c |] eqn:Hc.
  - destruct (len <=? m_mtu s - MTU_OVERHEAD).
    + unfold invoke. simpl. rewrite drop_app_length.
      intros Hk Hr. destruct k as [| k]; simpl in Hk; [| discriminate].
      inversion Hk. subst cl.
      split; [reflexivity |]. split; [reflexivity |]. eauto.
    + unfold invoke.
      set (fl := u16 (m_mtu s - MTU_OVERHEAD)).
      set (cl1 := bt_gatt_notify c attr 0 fl (view data 0 fl)).
      set (e1 := stack (calls s) cl1).
      set (s1 := set_calls (calls s ++ [(cl1, e1)]) s).
      destruct (send_loop_log c attr data (m_mtu s) fuel 0 fl (u16 (len - fl)) e1 s1)
        as (new & Hcalls & Hnot & Hrej).
      rewrite Hcalls. subst s1. simpl. rewrite <- app_assoc, drop_app_length.
      intros Hk Hr. destruct k as [| k]; simpl in Hk.
      * inversion Hk. subst r.
        rewrite send_loop_stops_on_error in * by assumption. simpl in *.
        split; [reflexivity |].
        apply (f_equal length) in Hcalls.
        rewrite !length_app in Hcalls. simpl in Hcalls.
        split; [lia |]. subst cl1. eauto.
      * destruct (Hrej k cl r Hk Hr) as [Hdone Hlen].
        split; [exact Hdone |]. split; [simpl; lia |].
        destruct (Hnot k cl r Hk) as (f & l & Hcl). eauto.
  - simpl. rewrite drop_all. intros Hk. destruct k; discriminate.
Qed.

(** ** Pattern generator and pump *)

Lemma same_link_refl s : same_link s s.
Proof. unfold same_link. tauto. Qed.

Lemma same_link_trans s t u : same_link s t -> same_link t u -> same_link s u.
Proof. unfold same_link. intuition congruence. Qed.

Lemma same_vars_link s t : same_vars s t -> same_link s t.
Proof. unfold same_vars, same_link. tauto. Qed.

Lemma generate_length n : forall cnt, length (fst (generate n cnt)) = n.
Proof.
  induction n as [| n IH]; intros cnt; simpl; [reflexivity |].
  specialize (IH (u32 (cnt + 1))).
  destruct (generate n (u32 (cnt + 1))). simpl in *. congruence.
Qed.

Lemma generate_counter n :
  forall cnt, 0 <= cnt -> cnt + Z.of_nat n < 2 ^ 32 ->
              snd (generate n cnt) = cnt + Z.of_nat n.
Proof.
  induction n as [| n IH]; intros cnt Hlo Hhi; simpl generate.
  - simpl. lia.
  - specialize (IH (u32 (cnt + 1))).
    rewrite u32_id in IH by lia.
    destruct (generate n (cnt + 1)) as [bytes cnt'] eqn:Hgen.
    rewrite u32_id by lia. rewrite Hgen. simpl in *. lia.
Qed.

Lemma generate_app a : forall b cnt,
  generate (a + b) cnt
  = (fst (generate a cnt) ++ fst (generate b (snd (generate a cnt))),
     snd (generate b (snd (generate a cnt)))).
Proof.
  induction a as [| a IH]; intros b cnt; simpl.
  - destruct (generate b cnt); reflexivity.
  - rewrite IH.
    destruct (generate a (u32 (cnt + 1))) as [bytes cnt']. reflexivity.
Qed.

Lemma wrap_counter_bound cnt :
  0 <= cnt -> 0 <= wrap_counter cnt <= Z.shiftl UINT16_MAX 1.
Proof.
  intros Hcnt. unfold wrap_counter.
  change (Z.shiftl UINT16_MAX 1) with 131070.
  destruct (131070 <? cnt) eqn:Hbig.
  - pose proof (Z.mod_pos_bound cnt 131070 ltac:(lia)).
    rewrite u32_id by lia. lia.
  - apply Z.ltb_ge in Hbig. lia.
Qed.

Lemma fill_in_bounds n :
  forall i s,
    0 <= i -> i + Z.of_nat n <= Z.of_nat (length (m_msg_buffer s)) ->
    exists s',
      fill n i s = Done tt s' /\
      same_link s s' /\ calls s' = calls s /\
      m_msg_buffer s'
      = take (Z.to_nat i) (m_msg_buffer s)
          ++ fst (generate n (m_msg_idx_cnt s))
          ++ drop (Z.to_nat i + n) (m_msg_buffer s) /\
      m_msg_idx_cnt s' = snd (generate n (m_msg_idx_cnt s)).
Proof.
  induction n as [| n IH]; intros i s Hi Hfit.
  - exists s. simpl.
    split; [reflexivity |]. split; [apply same_link_refl |]. split; [reflexivity |].
    split; [| reflexivity].
    rewrite Nat.add_0_r. rewrite take_drop. reflexivity.
  - simpl fill.
    assert (Hin : (i <? Z.of_nat (length (m_msg_buffer s))) = true)
      by (apply Z.ltb_lt; lia).
    rewrite Hin.
    set (cnt := m_msg_idx_cnt s).
    set (s1 := set_m_msg_idx_cnt _ _).
    destruct (IH (i + 1) s1) as (s' & Hrun & Hlink & Hcalls & Hbuf & Hcnt).
    { lia. }
    { subst s1. simpl. rewrite length_insert. lia. }
    exists s'.
    split; [exact Hrun |].
    split; [eapply same_link_trans; [| exact Hlink]; subst s1; unfold same_link; simpl; tauto |].
    split; [rewrite Hcalls; reflexivity |].
    simpl generate. fold cnt.
    change (m_msg_idx_cnt s1) with (u32 (cnt + 1)) in Hbuf, Hcnt.
    destruct (generate n (u32 (cnt + 1))) as [bytes cnt'] eqn:Hgen.
    simpl in *. split; [| exact Hcnt].
    rewrite Hbuf. subst s1. simpl.
    replace (Z.to_nat (i + 1)) with (S (Z.to_nat i)) by lia.
    assert (Hlt : (Z.to_nat i < length (m_msg_buffer s))%nat) by lia.
    rewrite (take_S_r _ _ (pattern_byte cnt))
      by (apply list_lookup_insert_eq; exact Hlt).
    rewrite take_insert_ge by lia.
    rewrite drop_insert_lt by lia.
    rewrite <- app_assoc. simpl.
    replace (S (Z.to_nat i + n)) with (Z.to_nat i + S n)%nat by lia.
    reflexivity.
Qed.

Lemma NextBuffer_bytes len cnt : fst (NextBuffer len cnt) = fst (generate len cnt).
Proof. unfold NextBuffer. destruct (generate len cnt). reflexivity. Qed.

Lemma NextBuffer_counter len cnt :
  snd (NextBuffer len cnt) = wrap_counter (snd (generate len cnt)).
Proof. unfold NextBuffer. destruct (generate len cnt). reflexivity. Qed.

Lemma view_prefix bytes rest len :
  Z.to_nat len = length bytes -> view (bytes ++ rest) 0 len = bytes.
Proof.
  intros Hlen. unfold view. change (Z.to_nat 0) with 0%nat.
  rewrite drop_0, Hlen. apply take_app_length.
Qed.

(** One streaming turn of the pump, for an MTU the buffer has room for: the
    first [m_mtu - 3] bytes of the buffer become the next buffer of the
    generator, the counter is the one the generator leaves, and [send_data]
    takes its single-notification branch. *)
Lemma notify_thread_streaming s :
  m_notif_enabled s = true -> m_notif_send s = true ->
  3 <= m_mtu s <= CONFIG_BT_L2CAP_TX_MTU ->
  CONFIG_BT_L2CAP_TX_MTU <= 65535 ->
  length (m_msg_buffer s) = Z.to_nat (CONFIG_BT_L2CAP_TX_MTU - MTU_OVERHEAD) ->
  exists s',
    notify_thread stack s = Done tt s' /\
    same_link s s' /\
    m_msg_buffer s'
    = fst (NextBuffer (Z.to_nat (m_mtu s - MTU_OVERHEAD)) (m_msg_idx_cnt s))
        ++ drop (Z.to_nat (m_mtu s - MTU_OVERHEAD)) (m_msg_buffer s) /\
    m_msg_idx_cnt s'
    = snd (NextBuffer (Z.to_nat (m_mtu s - MTU_OVERHEAD)) (m_msg_idx_cnt s)) /\
    calls s'
    = calls s ++
      match default_conn s with
      | Some c =>
          let cl := bt_gatt_notify c 3 0 (m_mtu s - MTU_OVERHEAD)
                      (fst (NextBuffer (Z.to_nat (m_mtu s - MTU_OVERHEAD))
                              (m_msg_idx_cnt s))) in
          [(cl, stack (calls s) cl)]
      | None => []
      end.
Proof.
  intros Hen Hsend Hmtu Hmax Hcap.
  unfold notify_thread. rewrite Hen, Hsend. simpl andb. cbv iota.
  assert (Hlen : size_t (m_mtu s - MTU_OVERHEAD) = m_mtu s - MTU_OVERHEAD)
    by (apply size_t_id; unfold MTU_OVERHEAD; lia).
  rewrite Hlen.
  set (len := m_mtu s - MTU_OVERHEAD) in *.
  assert (Hlen0 : 0 <= len <= 65532) by (unfold len, MTU_OVERHEAD; lia).
  destruct (fill_in_bounds (Z.to_nat len) 0 s) as (s1 & Hfill & Hlink & Hcalls & Hbuf & Hcnt).
  { lia. }
  { rewrite Hcap. unfold len, MTU_OVERHEAD in *. lia. }
  rewrite Hfill.
  rewrite u16_id by lia.
  simpl in Hbuf.
  rewrite NextBuffer_bytes, NextBuffer_counter.
  set (bytes := fst (generate (Z.to_nat len) (m_msg_idx_cnt s))) in *.
  assert (Hbytes : length bytes = Z.to_nat len) by apply generate_length.
  destruct Hlink as (H1 & H2 & H3 & H4 & H5 & H6).
  unfold send_data. simpl default_conn. simpl m_mtu. simpl m_msg_buffer.
  rewrite <- H6, <- H5. fold len.
  destruct (default_conn s) as [c |] eqn:Hc.
  - rewrite Z.leb_refl. unfold invoke. simpl.
    assert (Hview : view (m_msg_buffer s1) 0 len = bytes).
    { rewrite Hbuf. apply view_prefix. lia. }
    rewrite Hview.
    eexists. split; [reflexivity |]. simpl.
    split; [unfold same_link; simpl; intuition congruence |].
    split; [exact Hbuf |]. split; [rewrite Hcnt; reflexivity |].
    rewrite Hcalls. reflexivity.
  - eexists. split; [reflexivity |]. simpl.
    split; [unfold same_link; simpl; intuition congruence |].
    split; [exact Hbuf |]. split; [rewrite Hcnt; reflexivity |].
    rewrite Hcalls, app_nil_r. reflexivity.
Qed.

Lemma notify_thread_idle s :
  m_notif_enabled s && m_notif_send s = false ->
  notify_thread stack s
  = Done tt (set_calls (calls s ++ [(k_msleep 100, stack (calls s) (k_msleep 100))]) s).
Proof. intros Hidle. unfold notify_thread. rewrite Hidle. reflexivity. Qed.

(** C9.  In a streaming turn of the pump taken under 23 <= MTU <= configured
    maximum (with [m_msg_buffer] of its declared size): the length
    [m_mtu - 3] is the same number as a [size_t] (no wrap-around), it is at
    most the capacity of the buffer, so every index [0 .. len - 1] the loop
    writes is inside the buffer and the loop completes, and the turn never
    ends in an out-of-bounds write. *)
Theorem notify_thread_within_buffer (s : state) :
  23 <= m_mtu s <= CONFIG_BT_L2CAP_TX_MTU ->
  CONFIG_BT_L2CAP_TX_MTU <= 65535 ->
  length (m_msg_buffer s) = Z.to_nat (CONFIG_BT_L2CAP_TX_MTU - MTU_OVERHEAD) ->
  m_notif_enabled s = true -> m_notif_send s = true ->
  size_t (m_mtu s - MTU_OVERHEAD) = m_mtu s - MTU_OVERHEAD /\
  0 < m_mtu s - MTU_OVERHEAD <= Z.of_nat (length (m_msg_buffer s)) /\
  Z.of_nat (length (m_msg_buffer s)) = CONFIG_BT_L2CAP_TX_MTU - MTU_OVERHEAD /\
  (forall i, 0 <= i < size_t (m_mtu s - MTU_OVERHEAD) ->
             i < CONFIG_BT_L2CAP_TX_MTU - MTU_OVERHEAD) /\
  (exists s', fill (Z.to_nat (size_t (m_mtu s - MTU_OVERHEAD))) 0 s = Done tt s') /\
  (exists s', notify_thread stack s = Done tt s') /\
  (forall i s', notify_thread stack s <> OutOfBounds i s').
Proof.
  intros Hmtu Hmax Hcap Hen Hsend.
  assert (Hlen : size_t (m_mtu s - MTU_OVERHEAD) = m_mtu s - MTU_OVERHEAD)
    by (apply size_t_id; unfold MTU_OVERHEAD; lia).
  split; [exact Hlen |].
  split; [rewrite Hcap; unfold MTU_OVERHEAD; lia |].
  split; [rewrite Hcap; unfold MTU_OVERHEAD; lia |].
  split; [intros i Hi; rewrite Hlen in Hi; lia |].
  split.
  { rewrite Hlen.
    destruct (fill_in_bounds (Z.to_nat (m_mtu s - MTU_OVERHEAD)) 0 s)
      as (s1 & Hfill & _); [lia | rewrite Hcap; unfold MTU_OVERHEAD; lia |].
    exists s1. exact Hfill. }
  destruct (notify_thread_streaming s Hen Hsend) as (s' & Hrun & _);
    [lia | exact Hmax | exact Hcap |].
  split; [exists s'; exact Hrun |].
  intros i t Hoob. rewrite Hrun in Hoob. discriminate.
Qed.

(** C10.  In a streaming turn of the pump with a connection stored (the MTU
    is read from one and the same state for the buffer and for the send),
    the buffer generated is the next [m_mtu - 3] bytes of the pattern, its
    length as [send_data] receives it meets the single-notification test
    [len <= mtu - 3], and the turn makes exactly one call into the stack: one
    notification of those [m_mtu - 3] bytes from offset 0, whatever the
    stack answers.  The fragmenting loop is not entered. *)
Theorem notify_thread_one_notification (c : conn) (s : state) :
  m_notif_enabled s = true -> m_notif_send s = true ->
  default_conn s = Some c ->
  3 <= m_mtu s <= CONFIG_BT_L2CAP_TX_MTU ->
  CONFIG_BT_L2CAP_TX_MTU <= 65535 ->
  length (m_msg_buffer s) = Z.to_nat (CONFIG_BT_L2CAP_TX_MTU - MTU_OVERHEAD) ->
  exists s' bytes r,
    notify_thread stack s = Done tt s' /\
    bytes = fst (NextBuffer (Z.to_nat (m_mtu s - MTU_OVERHEAD)) (m_msg_idx_cnt s)) /\
    Z.of_nat (length bytes) = m_mtu s - MTU_OVERHEAD /\
    take (length bytes) (m_msg_buffer s') = bytes /\
    m_mtu s' = m_mtu s /\
    u16 (size_t (m_mtu s - MTU_OVERHEAD)) <= m_mtu s' - MTU_OVERHEAD /\
    issued s s' = [(bt_gatt_notify c 3 0 (m_mtu s - MTU_OVERHEAD) bytes, r)].
Proof.
  intros Hen Hsend Hc Hmtu Hmax Hcap.
  destruct (notify_thread_streaming s Hen Hsend Hmtu Hmax Hcap)
    as (s' & Hrun & Hlink & Hbuf & Hcnt & Hiss).
  rewrite Hc in Hiss. simpl in Hiss.
  apply (f_equal (drop (length (calls s)))) in Hiss.
  rewrite drop_app_length in Hiss. fold (issued s s') in Hiss.
  set (bytes := fst (NextBuffer (Z.to_nat (m_mtu s - MTU_OVERHEAD)) (m_msg_idx_cnt s))) in *.
  assert (Hbytes : length bytes = Z.to_nat (m_mtu s - MTU_OVERHEAD)).
  { unfold bytes. rewrite NextBuffer_bytes. apply generate_length. }
  exists s', bytes. eexists.
  split; [exact Hrun |]. split; [reflexivity |].
  split; [rewrite Hbytes; unfold MTU_OVERHEAD; lia |].
  split; [rewrite Hbuf; rewrite take_app_length; reflexivity |].
  destruct Hlink as (H1 & H2 & H3 & H4 & H5 & H6).
  split; [symmetry; exact H5 |].
  split.
  { rewrite size_t_id by (unfold MTU_OVERHEAD; lia).
    rewrite u16_id by (unfold MTU_OVERHEAD; lia). rewrite H5. lia. }
  exact Hiss.
Qed.

(** ** Runs *)

Lemma connected_mtu c hci_err s :
  (m_mtu (snd (connected stack c hci_err s)) = 23 \/
   m_mtu (snd (connected stack c hci_err s)) = m_mtu s) /\
  m_msg_buffer (snd (connected stack c hci_err s)) = m_msg_buffer s /\
  m_msg_idx_cnt (snd (connected stack c hci_err s)) = m_msg_idx_cnt s.
Proof.
  unfold connected.
  destruct (negb (hci_err =? 0)).
  - destruct (hci_err =? BT_HCI_ERR_UNKNOWN_CONN_ID); simpl; auto.
  - run_monad. destruct (default_conn s); simpl; [auto |].
    destruct (negb _); simpl; auto.
Qed.

Lemma connected_resets_mtu c s :
  default_conn s = None ->
  stack (calls s ++ [(bt_conn_ref c, stack (calls s) (bt_conn_ref c))])
    (bt_conn_get_info c) = 0 ->
  m_mtu (snd (connected stack c 0 s)) = 23 /\
  default_conn (snd (connected stack c 0 s)) = Some c.
Proof.
  intros Hnone Hinfo. unfold connected. run_monad.
  rewrite Hnone. simpl. rewrite Hinfo. simpl. auto.
Qed.

Lemma disconnected_pattern c reason s :
  m_mtu (snd (disconnected CONFIG_BT_DEVICE_NAME stack c reason s)) = m_mtu s /\
  m_msg_buffer (snd (disconnected CONFIG_BT_DEVICE_NAME stack c reason s))
  = m_msg_buffer s /\
  m_msg_idx_cnt (snd (disconnected CONFIG_BT_DEVICE_NAME stack c reason s))
  = m_msg_idx_cnt s.
Proof.
  unfold disconnected. run_monad.
  destruct (default_conn s); simpl;
    destruct (negb _); simpl; try rewrite adv_start_log; simpl; auto.
Qed.

Lemma mtu_updated_min c tx rx s :
  0 <= tx <= 65535 -> 0 <= CONFIG_BT_L2CAP_TX_MTU <= 65535 ->
  m_mtu (snd (mtu_updated CONFIG_BT_L2CAP_TX_MTU c tx rx s))
  = Z.min tx CONFIG_BT_L2CAP_TX_MTU /\
  m_msg_buffer (snd (mtu_updated CONFIG_BT_L2CAP_TX_MTU c tx rx s)) = m_msg_buffer s /\
  m_msg_idx_cnt (snd (mtu_updated CONFIG_BT_L2CAP_TX_MTU c tx rx s)) = m_msg_idx_cnt s.
Proof.
  intros Htx Hmax. unfold mtu_updated. run_monad.
  rewrite (u16_id tx) by lia.
  destruct (CONFIG_BT_L2CAP_TX_MTU <=? tx) eqn:Hclamp; simpl.
  - apply Z.leb_le in Hclamp. rewrite u16_id by lia. split; [lia | auto].
  - apply Z.leb_gt in Hclamp. split; [lia | auto].
Qed.

Lemma boot_consistent :
  23 <= CONFIG_BT_L2CAP_TX_MTU ->
  consistent CONFIG_BT_L2CAP_TX_MTU
    (boot CONFIG_BT_L2CAP_TX_MTU CONFIG_BT_DEVICE_NAME stack).
Proof.
  intros Hmax. unfold boot, main. run_monad.
  destruct (negb _); simpl; try rewrite adv_start_log; simpl;
    unfold consistent; simpl; rewrite length_replicate;
    change (Z.shiftl UINT16_MAX 1) with 131070; lia.
Qed.

Lemma handle_consistent e s :
  23 <= CONFIG_BT_L2CAP_TX_MTU <= 65535 ->
  att_conformant e ->
  consistent CONFIG_BT_L2CAP_TX_MTU s ->
  exists s',
    handle CONFIG_BT_L2CAP_TX_MTU CONFIG_BT_DEVICE_NAME stack e s = Done tt s' /\
    consistent CONFIG_BT_L2CAP_TX_MTU s'.
Proof.
  intros Hmax He (Hmtu & Hcap & Hcnt).
  destruct e as [c hci_err | c reason | c tx rx | value | buf |]; simpl.
  - destruct (connected stack c hci_err s) as [[] s'] eqn:Hrun.
    exists s'. split; [reflexivity |].
    pose proof (connected_mtu c hci_err s) as (Hm & Hb & Hc).
    rewrite Hrun in Hm, Hb, Hc. simpl in *.
    unfold consistent. rewrite Hb, Hc. repeat split; try lia.
  - destruct (disconnected CONFIG_BT_DEVICE_NAME stack c reason s) as [[] s'] eqn:Hrun.
    exists s'. split; [reflexivity |].
    pose proof (disconnected_pattern c reason s) as (Hm & Hb & Hc).
    rewrite Hrun in Hm, Hb, Hc. simpl in *.
    unfold consistent. rewrite Hm, Hb, Hc. repeat split; try lia.
  - destruct (mtu_updated CONFIG_BT_L2CAP_TX_MTU c tx rx s) as [[] s'] eqn:Hrun.
    exists s'. split; [reflexivity |].
    simpl in He.
    pose proof (mtu_updated_min c tx rx s ltac:(lia) ltac:(lia)) as (Hm & Hb & Hc).
    rewrite Hrun in Hm, Hb, Hc. simpl in *.
    unfold consistent. rewrite Hm, Hb, Hc. repeat split; try lia.
  - eexists. split; [reflexivity |]. unfold consistent. simpl. repeat split; lia.
  - unfold write_cmd_cb. run_monad.
    destruct (2 <=? _); [destruct (nth 0 buf 0 =? 1) |]; simpl;
      (eexists; split; [reflexivity |]; unfold consistent; simpl; repeat split; lia).
  - destruct (m_notif_enabled s && m_notif_send s) eqn:Hstream.
    + apply andb_true_iff in Hstream as [Hen Hsend].
      destruct (notify_thread_streaming s Hen Hsend)
        as (s' & Hrun & Hlink & Hbuf & Hc & _); [lia | lia | exact Hcap |].
      exists s'. split; [exact Hrun |].
      destruct Hlink as (_ & _ & _ & _ & H5 & _).
      unfold consistent. rewrite <- H5, Hbuf, Hc.
      split; [lia |]. split.
      * rewrite length_app, length_drop, NextBuffer_bytes, generate_length.
        rewrite Hcap. unfold MTU_OVERHEAD. lia.
      * rewrite NextBuffer_counter. apply wrap_counter_bound.
        change (Z.shiftl UINT16_MAX 1) with 131070 in Hcnt.
        rewrite generate_counter; unfold MTU_OVERHEAD; lia.
    + rewrite notify_thread_idle by exact Hstream.
      eexists. split; [reflexivity |]. unfold consistent. simpl. repeat split; lia.
Qed.

Lemma run_consistent es :
  23 <= CONFIG_BT_L2CAP_TX_MTU <= 65535 ->
  Forall att_conformant es ->
  forall s,
    consistent CONFIG_BT_L2CAP_TX_MTU s ->
    exists s',
      run CONFIG_BT_L2CAP_TX_MTU CONFIG_BT_DEVICE_NAME stack es s = Done tt s' /\
      consistent CONFIG_BT_L2CAP_TX_MTU s'.
Proof.
  intros Hmax Hes. induction Hes as [| e es He Hes IH]; intros s Hs.
  - exists s. split; [reflexivity | exact Hs].
  - destruct (handle_consistent e s Hmax He Hs) as (s1 & Hstep & Hs1).
    destruct (IH s1 Hs1) as (s' & Hrun & Hs').
    exists s'. simpl. rewrite Hstep. split; [exact Hrun | exact Hs'].
Qed.

(** C4, as the code has it.  With a configured maximum between 23 and
    65535, and MTU exchanges that report a TX size of at least 23 (as ATT
    requires), every sequence of events and pump turns from boot runs to
    completion and leaves 23 <= MTU <= configured maximum.  The MTU-exchange
    callback stores [min (tx, configured maximum)]; the connect callback
    either leaves the MTU as it is or stores 23, and stores 23 when it takes
    a new connection whose info query succeeds. *)
Theorem mtu_stays_in_range (es : list event) :
  23 <= CONFIG_BT_L2CAP_TX_MTU <= 65535 ->
  Forall att_conformant es ->
  (exists s,
     run CONFIG_BT_L2CAP_TX_MTU CONFIG_BT_DEVICE_NAME stack es
       (boot CONFIG_BT_L2CAP_TX_MTU CONFIG_BT_DEVICE_NAME stack) = Done tt s /\
     23 <= m_mtu s <= CONFIG_BT_L2CAP_TX_MTU) /\
  (forall c tx rx s,
     0 <= tx <= 65535 ->
     m_mtu (snd (mtu_updated CONFIG_BT_L2CAP_TX_MTU c tx rx s))
     = Z.min tx CONFIG_BT_L2CAP_TX_MTU) /\
  (forall c hci_err s,
     m_mtu (snd (connected stack c hci_err s)) = 23 \/
     m_mtu (snd (connected stack c hci_err s)) = m_mtu s) /\
  (forall c s,
     default_conn s = None ->
     stack (calls s ++ [(bt_conn_ref c, stack (calls s) (bt_conn_ref c))])
       (bt_conn_get_info c) = 0 ->
     m_mtu (snd (connected stack c 0 s)) = 23).
Proof.
  intros Hmax Hes.
  split.
  { destruct (run_consistent es Hmax Hes _ (boot_consistent ltac:(lia)))
      as (s & Hrun & Hmtu & _).
    exists s. split; [exact Hrun | exact Hmtu]. }
  split.
  { intros c tx rx s Htx. apply mtu_updated_min; lia. }
  split.
  { intros c hci_err s. apply connected_mtu. }
  intros c s Hnone Hinfo. apply connected_resets_mtu; assumption.
Qed.

(** ** The pattern around the counter wrap *)

Lemma land_1_mod cnt : Z.land cnt 1 = cnt mod 2.
Proof. change 1 with (Z.ones 1). rewrite Z.land_ones by lia. reflexivity. Qed.

Lemma land_255_mod x : Z.land x 0xFF = x mod 256.
Proof. change 0xFF with (Z.ones 8). rewrite Z.land_ones by lia. reflexivity. Qed.

(** X17.  The byte depends on bits 0 to 16 of the counter only: the pattern
    repeats every 131072 counts. *)
Lemma pattern_byte_period cnt : pattern_byte (cnt + 131072) = pattern_byte cnt.
Proof.
  unfold pattern_byte. rewrite !land_1_mod.
  replace ((cnt + 131072) mod 2) with (cnt mod 2)
    by (replace (cnt + 131072) with (cnt + 65536 * 2) by lia;
        rewrite Z.mod_add by lia; reflexivity).
  destruct (cnt mod 2 =? 0); f_equal; rewrite !land_255_mod;
    rewrite !Z.shiftr_div_pow2 by lia.
  - change (2 ^ 1) with 2.
    replace (cnt + 131072) with (cnt + 65536 * 2) by lia.
    rewrite Z.div_add by lia.
    replace (cnt / 2 + 65536) with (cnt / 2 + 256 * 256) by lia.
    apply Z.mod_add. lia.
  - change (2 ^ 9) with 512.
    replace (cnt + 131072) with (cnt + 256 * 512) by lia.
    rewrite Z.div_add by lia.
    replace (cnt / 512 + 256) with (cnt / 512 + 1 * 256) by lia.
    apply Z.mod_add. lia.
Qed.

(** X18.  Two buffers in a row are one longer buffer as long as the counter
    is not wrapped in between: the bytes of the first followed by the bytes of
    the second are the bytes of a single buffer of the summed length, and the
    counter ends up the same. *)
Lemma NextBuffer_continuity_without_wrap a b cnt :
  snd (generate a cnt) <= Z.shiftl UINT16_MAX 1 ->
  fst (NextBuffer a cnt) ++ fst (NextBuffer b (snd (NextBuffer a cnt)))
  = fst (NextBuffer (a + b) cnt) /\
  snd (NextBuffer b (snd (NextBuffer a cnt))) = snd (NextBuffer (a + b) cnt).
Proof.
  intros Hsmall.
  rewrite !NextBuffer_bytes, !NextBuffer_counter, generate_app. simpl.
  assert (Hsame : wrap_counter (snd (generate a cnt)) = snd (generate a cnt)).
  { unfold wrap_counter.
    destruct (Z.shiftl UINT16_MAX 1 <? snd (generate a cnt)) eqn:Hbig;
      [apply Z.ltb_lt in Hbig; lia | reflexivity]. }
  rewrite Hsame. split; reflexivity.
Qed.

Lemma run_app es1 : forall es2 s s1,
  run CONFIG_BT_L2CAP_TX_MTU CONFIG_BT_DEVICE_NAME stack es1 s = Done tt s1 ->
  run CONFIG_BT_L2CAP_TX_MTU CONFIG_BT_DEVICE_NAME stack (es1 ++ es2) s
  = run CONFIG_BT_L2CAP_TX_MTU CONFIG_BT_DEVICE_NAME stack es2 s1.
Proof.
  induction es1 as [| e es1 IH]; intros es2 s s1 Hrun; simpl in *.
  - inversion Hrun. reflexivity.
  - destruct (handle _ _ _ e s) as [[] s' | s' | i s']; try discriminate.
    apply IH. exact Hrun.
Qed.

(** With the default MTU of 23 each streaming turn moves the counter on by
    20, up to the wrap. *)
Lemma pump_turns_advance_counter n :
  23 <= CONFIG_BT_L2CAP_TX_MTU <= 65535 ->
  forall s,
    consistent CONFIG_BT_L2CAP_TX_MTU s ->
    m_notif_enabled s = true -> m_notif_send s = true -> m_mtu s = 23 ->
    m_msg_idx_cnt s + 20 * Z.of_nat n <= 131070 ->
    exists s',
      run CONFIG_BT_L2CAP_TX_MTU CONFIG_BT_DEVICE_NAME stack (replicate n Pump) s
      = Done tt s' /\
      consistent CONFIG_BT_L2CAP_TX_MTU s' /\
      m_notif_enabled s' = true /\ m_notif_send s' = true /\ m_mtu s' = 23 /\
      m_msg_idx_cnt s' = m_msg_idx_cnt s + 20 * Z.of_nat n.
Proof.
  intros Hmax. induction n as [| n IH]; intros s Hs Hen Hsend Hmtu Hcnt.
  - exists s. simpl. repeat split; try assumption; try apply Hs. lia.
  - destruct Hs as (Hm & Hcap & Hc).
    destruct (notify_thread_streaming s Hen Hsend)
      as (s1 & Hrun & Hlink & Hbuf & Hc1 & _); [lia | lia | exact Hcap |].
    destruct Hlink as (_ & _ & H3 & H4 & H5 & _).
    assert (Hc1' : m_msg_idx_cnt s1 = m_msg_idx_cnt s + 20).
    { rewrite Hc1, NextBuffer_counter, Hmtu. change (Z.to_nat (23 - MTU_OVERHEAD)) with 20%nat.
      rewrite generate_counter by lia. unfold wrap_counter.
      change (Z.shiftl UINT16_MAX 1) with 131070.
      destruct (131070 <? _) eqn:Hbig; [apply Z.ltb_lt in Hbig; lia | lia]. }
    destruct (IH s1) as (s' & Hrun' & Hs' & Hen' & Hsend' & Hmtu' & Hcnt').
    { unfold consistent. rewrite <- H5, Hbuf, Hc1'.
      change (Z.shiftl UINT16_MAX 1) with 131070.
      split; [lia |]. split; [| lia].
      rewrite length_app, length_drop, NextBuffer_bytes, generate_length.
      rewrite Hcap. unfold MTU_OVERHEAD. lia. }
    { congruence. } { congruence. } { congruence. } { lia. }
    exists s'. simpl. rewrite Hrun.
    split; [exact Hrun' |]. repeat split; try assumption; try apply Hs'. lia.
Qed.

Lemma streaming_events_counter n :
  23 <= CONFIG_BT_L2CAP_TX_MTU <= 65535 ->
  20 * Z.of_nat n <= 131070 ->
  exists s,
    run CONFIG_BT_L2CAP_TX_MTU CONFIG_BT_DEVICE_NAME stack (streaming_events n)
      (boot CONFIG_BT_L2CAP_TX_MTU CONFIG_BT_DEVICE_NAME stack) = Done tt s /\
    consistent CONFIG_BT_L2CAP_TX_MTU s /\
    m_notif_enabled s = true /\ m_notif_send s = true /\ m_mtu s = 23 /\
    m_msg_idx_cnt s = 20 * Z.of_nat n.
Proof.
  intros Hmax Hn. unfold streaming_events.
  set (s0 := boot CONFIG_BT_L2CAP_TX_MTU CONFIG_BT_DEVICE_NAME stack).
  assert (Hs0 : consistent CONFIG_BT_L2CAP_TX_MTU s0) by (apply boot_consistent; lia).
  assert (Hm0 : m_mtu s0 = 23 /\ m_msg_idx_cnt s0 = 0).
  { unfold s0, boot, main. run_monad.
    destruct (negb _); simpl; try rewrite adv_start_log; simpl; auto. }
  destruct Hm0 as [Hm0 Hc0].
  destruct (connected stack 1%nat 0 s0) as [[] s1] eqn:Hconn.
  pose proof (connected_mtu 1%nat 0 s0) as (Hm1 & Hb1 & Hc1).
  rewrite Hconn in Hm1, Hb1, Hc1. simpl in Hm1, Hb1, Hc1.
  assert (Hm1' : m_mtu s1 = 23) by (destruct Hm1; congruence).
  set (s3 := set_m_notif_send true (set_m_notif_enabled true s1)).
  assert (Hprefix :
    run CONFIG_BT_L2CAP_TX_MTU CONFIG_BT_DEVICE_NAME stack
      [Connect 1%nat 0; CccWrite BT_GATT_CCC_NOTIFY; CmdWrite [0x01; 0x01]] s0
    = Done tt s3).
  { simpl. rewrite Hconn. reflexivity. }
  rewrite (run_app _ _ _ _ Hprefix).
  destruct (pump_turns_advance_counter n Hmax s3)
    as (s' & Hrun & Hs' & Hen & Hsend & Hmtu & Hcnt).
  { destruct Hs0 as (_ & Hcap & _). unfold consistent, s3. simpl.
    rewrite Hm1', Hb1, Hc1, Hc0. change (Z.shiftl UINT16_MAX 1) with 131070.
    repeat split; try lia; try exact Hcap. }
  { reflexivity. } { reflexivity. } { exact Hm1'. }
  { unfold s3. simpl. rewrite Hc1, Hc0. lia. }
  exists s'. split; [exact Hrun |].
  repeat split; try assumption; try apply Hs'.
  rewrite Hcnt. unfold s3. simpl. rewrite Hc1, Hc0. lia.
Qed.

(** X19.  In every run from boot (MTU exchanges reporting at least 23) the
    counter, between events, is at most 131070. *)
Lemma counter_bounded_in_runs es :
  23 <= CONFIG_BT_L2CAP_TX_MTU <= 65535 ->
  Forall att_conformant es ->
  exists s,
    run CONFIG_BT_L2CAP_TX_MTU CONFIG_BT_DEVICE_NAME stack es
      (boot CONFIG_BT_L2CAP_TX_MTU CONFIG_BT_DEVICE_NAME stack) = Done tt s /\
    0 <= m_msg_idx_cnt s <= 131070.
Proof.
  intros Hmax Hes.
  destruct (run_consistent es Hmax Hes _ (boot_consistent ltac:(lia)))
    as (s & Hrun & _ & _ & Hcnt).
  exists s. split; [exact Hrun | exact Hcnt].
Qed.

(** ** One connection at a time *)







(** ** What the sender and the pump leave alone *)

Lemma send_loop_frame c attr data mtu fuel :
  forall frag frag_len remaining_len err s,
    same_vars s (state_of (send_loop stack fuel c attr data mtu frag frag_len
                             remaining_len err s)).
Proof.
  induction fuel as [| fuel IH]; intros frag frag_len remaining_len err s; simpl.
  - destruct ((err =? 0) && (0 <? remaining_len)); apply same_vars_refl.
  - destruct ((err =? 0) && (0 <? remaining_len)); [| apply same_vars_refl].
    destruct (if remaining_len <=? mtu - MTU_OVERHEAD
              then (remaining_len, 0)
              else (frag_len, u16 (remaining_len - frag_len))) as [fl rl].
    unfold invoke.
    eapply same_vars_trans; [| apply IH]. apply same_vars_set_calls.
Qed.

Lemma send_data_vars fuel data len attr s :
  same_vars s (state_of (send_data stack fuel data len attr s)).
Proof.
  unfold send_data. destruct (default_conn s) as [c |]; [| apply same_vars_refl].
  destruct (len <=? m_mtu s - MTU_OVERHEAD); unfold invoke.
  - apply same_vars_set_calls.
  - eapply same_vars_trans; [| apply send_loop_frame]. apply same_vars_set_calls.
Qed.

(** X1.  [send_data] changes no variable of the firmware, whatever the stack
    answers and however long the loop runs.  Everything it calls is
    [bt_gatt_notify] on the stored connection and the attribute it was
    given, with a view into the caller's buffer; with no connection stored it
    returns [-ENODEV] at once and calls nothing. *)
Theorem send_data_only_notifies (fuel : nat) (data : list Z) (len : Z) (attr : nat)
    (s : state) :
  same_vars s (state_of (send_data stack fuel data len attr s)) /\
  (exists new,
     calls (state_of (send_data stack fuel data len attr s)) = calls s ++ new /\
     forall k cl r, new !! k = Some (cl, r) ->
       exists c f l,
         default_conn s = Some c /\
         cl = bt_gatt_notify c attr f l (view data f l)) /\
  (default_conn s = None ->
   send_data stack fuel data len attr s = Done (- ENODEV) s).
Proof.
  split; [apply send_data_vars |]. split.
  - unfold send_data. destruct (default_conn s) as [c |] eqn:Hc.
    + destruct (len <=? m_mtu s - MTU_OVERHEAD); unfold invoke.
      * eexists. split; [reflexivity |].
        intros [| k] cl r Hk; simpl in Hk; [| discriminate].
        inversion Hk. eauto.
      * set (fl := u16 (m_mtu s - MTU_OVERHEAD)).
        set (cl1 := bt_gatt_notify c attr 0 fl (view data 0 fl)).
        set (e1 := stack (calls s) cl1).
        set (s1 := set_calls (calls s ++ [(cl1, e1)]) s).
        destruct (send_loop_log c attr data (m_mtu s) fuel 0 fl (u16 (len - fl)) e1 s1)
          as (new & Hcalls & Hnot & _).
        exists ((cl1, e1) :: new).
        split; [rewrite Hcalls; subst s1; simpl; rewrite <- app_assoc; reflexivity |].
        intros [| k] cl r Hk; simpl in Hk.
        -- inversion Hk. subst cl1. eauto.
        -- destruct (Hnot k cl r Hk) as (f & l & Hcl). eauto.
    + exists []. split; [simpl; rewrite app_nil_r; reflexivity |].
      intros k cl r Hk. destruct k; discriminate.
  - intros Hnone. unfold send_data. rewrite Hnone. reflexivity.
Qed.

Lemma delivered_app h1 h2 : delivered (h1 ++ h2) = delivered h1 ++ delivered h2.
Proof. unfold delivered. rewrite omap_app, concat_app. reflexivity. Qed.

Lemma delivered_notification c attr f l p r :
  delivered [(bt_gatt_notify c attr f l p, r)] = if r =? 0 then p else [].
Proof.
  unfold delivered. simpl. destruct (r =? 0); simpl; [apply app_nil_r | reflexivity].
Qed.

Lemma view_empty data off : view data off 0 = [].
Proof. reflexivity. Qed.

Lemma send_loop_delivers_prefix c attr data mtu :
  1 <= mtu - MTU_OVERHEAD <= 65535 ->
  forall fuel frag r err s,
    0 <= frag -> 0 <= r <= 65535 -> (Z.to_nat r <= fuel)%nat ->
    exists e s' new sent,
      send_loop stack fuel c attr data mtu frag (mtu - MTU_OVERHEAD) r err s
      = Done e s' /\
      calls s' = calls s ++ new /\
      0 <= sent <= r /\
      delivered new = view data (frag + (mtu - MTU_OVERHEAD)) sent /\
      (e = 0 -> sent = r).
Proof.
  intros Hu. set (u := mtu - MTU_OVERHEAD) in *.
  induction fuel as [| fuel IH]; intros frag r err s Hfrag Hr Hfuel.
  - assert (r = 0) by lia. subst r.
    exists err, s, [], 0. rewrite send_loop_stops_when_sent.
    split; [reflexivity |]. split; [rewrite app_nil_r; reflexivity |].
    split; [lia |]. split; [reflexivity | reflexivity].
  - destruct (Z.eq_dec err 0) as [-> | Herr].
    2:{ exists err, s, [], 0. rewrite send_loop_stops_on_error by exact Herr.
        split; [reflexivity |]. split; [rewrite app_nil_r; reflexivity |].
        split; [lia |]. split; [reflexivity | intros H0; contradiction]. }
    destruct (Z.eq_dec r 0) as [-> | Hr0].
    { exists 0, s, [], 0. rewrite send_loop_stops_when_sent.
      split; [reflexivity |]. split; [rewrite app_nil_r; reflexivity |].
      split; [lia |]. split; reflexivity. }
    simpl.
    assert (Hpos : (0 <? r) = true) by (apply Z.ltb_lt; lia).
    rewrite Hpos. simpl. fold u.
    destruct (r <=? u) eqn:Hlast.
    + apply Z.leb_le in Hlast. unfold invoke.
      rewrite send_loop_stops_when_sent.
      set (cl := bt_gatt_notify c attr (frag + u) r (view data (frag + u) r)).
      exists (stack (calls s) cl), (set_calls (calls s ++ [(cl, stack (calls s) cl)]) s),
        [(cl, stack (calls s) cl)],
        (if stack (calls s) cl =? 0 then r else 0).
      split; [reflexivity |]. split; [reflexivity |].
      rewrite (delivered_notification c attr (frag + u) r (view data (frag + u) r)
                 (stack (calls s) cl) : delivered [(cl, _)] = _).
      destruct (stack (calls s) cl =? 0) eqn:He.
      * split; [lia |]. split; [reflexivity | reflexivity].
      * apply Z.eqb_neq in He.
        split; [lia |]. split; [reflexivity | intros H0; contradiction].
    + apply Z.leb_gt in Hlast. unfold invoke.
      rewrite u16_id by lia.
      set (cl := bt_gatt_notify c attr (frag + u) u (view data (frag + u) u)).
      set (e1 := stack (calls s) cl).
      set (s1 := set_calls (calls s ++ [(cl, e1)]) s).
      destruct (Z.eq_dec e1 0) as [He1 | He1].
      * destruct (IH (frag + u) (r - u) e1 s1)
          as (e & s' & new & sent & Hrun & Hcalls & Hsent & Hdel & Hall);
          [lia | lia | lia |].
        exists e, s', ((cl, e1) :: new), (u + sent).
        split; [exact Hrun |].
        split; [rewrite Hcalls; subst s1; simpl; rewrite <- app_assoc; reflexivity |].
        split; [lia |]. split.
        -- change ((cl, e1) :: new) with ([(cl, e1)] ++ new).
           rewrite delivered_app.
           rewrite (delivered_notification c attr (frag + u) u (view data (frag + u) u)
                      e1 : delivered [(cl, _)] = _).
           rewrite He1. simpl. rewrite Hdel. rewrite view_app by lia. reflexivity.
        -- intros He. specialize (Hall He). lia.
      * rewrite send_loop_stops_on_error by exact He1.
        exists e1, s1, [(cl, e1)], 0.
        split; [reflexivity |]. split; [reflexivity |].
        split; [lia |]. split.
        -- rewrite (delivered_notification c attr (frag + u) u (view data (frag + u) u)
                      e1 : delivered [(cl, _)] = _).
           apply Z.eqb_neq in He1. rewrite He1. reflexivity.
        -- intros H0. contradiction.
Qed.

(** X2.  With a connection stored, an MTU of at least 4 and fuel for one
    iteration per byte, [send_data] returns whatever the stack answers, and
    the bytes the stack took are a prefix of the buffer, in order and without
    repetition; when the return value is 0 they are the whole buffer. *)
Theorem send_data_delivers_prefix (fuel : nat) (data : list Z) (attr : nat)
    (c : conn) (s : state) :
  default_conn s = Some c ->
  4 <= m_mtu s <= 65535 ->
  Z.of_nat (length data) <= 65535 ->
  (length data <= fuel)%nat ->
  exists e s' sent,
    send_data stack fuel data (Z.of_nat (length data)) attr s = Done e s' /\
    0 <= sent <= Z.of_nat (length data) /\
    delivered (issued s s') = take (Z.to_nat sent) data /\
    (e = 0 -> delivered (issued s s') = data).
Proof.
  intros Hc Hmtu Hlen Hfuel.
  unfold send_data, issued. rewrite Hc.
  set (L := Z.of_nat (length data)) in *.
  set (u := m_mtu s - MTU_OVERHEAD).
  assert (Hu : 1 <= u <= 65532) by (unfold u, MTU_OVERHEAD; lia).
  destruct (L <=? u) eqn:Hone.
  - unfold invoke.
    set (cl := bt_gatt_notify c attr 0 L (view data 0 L)).
    exists (stack (calls s) cl), (set_calls (calls s ++ [(cl, stack (calls s) cl)]) s),
      (if stack (calls s) cl =? 0 then L else 0).
    split; [reflexivity |]. simpl. rewrite drop_app_length.
    rewrite (delivered_notification c attr 0 L (view data 0 L)
               (stack (calls s) cl) : delivered [(cl, _)] = _).
    destruct (stack (calls s) cl =? 0) eqn:He.
    + split; [lia |]. rewrite view_all.
      split; [| reflexivity].
      unfold L. rewrite Nat2Z.id. symmetry. apply firstn_all.
    + apply Z.eqb_neq in He.
      split; [lia |]. split; [reflexivity | intros H0; contradiction].
  - apply Z.leb_gt in Hone. unfold invoke.
    rewrite (u16_id u) by lia. rewrite u16_id by lia.
    set (cl := bt_gatt_notify c attr 0 u (view data 0 u)).
    set (e1 := stack (calls s) cl).
    set (s1 := set_calls (calls s ++ [(cl, e1)]) s).
    destruct (Z.eq_dec e1 0) as [He1 | He1].
    + destruct (send_loop_delivers_prefix c attr data (m_mtu s) ltac:(fold u; lia)
                  fuel 0 (L - u) e1 s1)
        as (e & s' & new & sent & Hrun & Hcalls & Hsent & Hdel & Hall);
        [lia | lia | lia |].
      fold u in Hrun, Hdel.
      exists e, s', (u + sent).
      split; [exact Hrun |]. split; [lia |].
      assert (Hd : delivered (drop (length (calls s)) (calls s'))
                   = take (Z.to_nat (u + sent)) data).
      { rewrite Hcalls. subst s1. simpl. rewrite <- app_assoc, drop_app_length.
        rewrite delivered_app.
        rewrite (delivered_notification c attr 0 u (view data 0 u)
                   e1 : delivered [(cl, _)] = _).
        rewrite He1. simpl. rewrite Hdel. simpl.
        rewrite <- view_app by lia. unfold view. simpl. reflexivity. }
      split; [exact Hd |].
      intros He. rewrite Hd. specialize (Hall He).
      replace (u + sent) with L by lia. unfold L. rewrite Nat2Z.id. apply firstn_all.
    + rewrite send_loop_stops_on_error by exact He1.
      exists e1, s1, 0.
      split; [reflexivity |]. split; [lia |].
      split; [| intros H0; contradiction].
      subst s1. simpl. rewrite drop_app_length.
      rewrite (delivered_notification c attr 0 u (view data 0 u)
                 e1 : delivered [(cl, _)] = _).
      apply Z.eqb_neq in He1. rewrite He1. reflexivity.
Qed.

Lemma send_loop_stalls c attr data len :
  0 < len <= 65535 ->
  (forall h f l p, stack h (bt_gatt_notify c attr f l p) = 0) ->
  forall fuel s,
    send_loop stack fuel c attr data 3 0 0 len 0 s
    = Running (set_calls (calls s ++ replicate fuel (bt_gatt_notify c attr 0 0 [], 0)) s).
Proof.
  intros Hlen Hok. induction fuel as [| fuel IH]; intros s; simpl.
  - assert (Hpos : (0 <? len) = true) by (apply Z.ltb_lt; lia).
    rewrite Hpos. rewrite app_nil_r. destruct s; reflexivity.
  - assert (Hpos : (0 <? len) = true) by (apply Z.ltb_lt; lia).
    rewrite Hpos.
    assert (Hmore : (len <=? 3 - MTU_OVERHEAD) = false)
      by (apply Z.leb_gt; unfold MTU_OVERHEAD; lia).
    rewrite Hmore. unfold invoke. rewrite Hok. rewrite Z.sub_0_r.
    rewrite u16_id by lia. simpl Z.add. rewrite view_empty.
    rewrite IH. simpl. rewrite <- app_assoc. reflexivity.
Qed.

(** X3.  With the MTU at exactly 3 no payload byte fits a notification:
    given a connection, a non-empty buffer and a stack that takes every
    notification, [send_data] does not return.  However much fuel it gets, it
    is still in its loop, having issued one empty notification at offset 0
    per iteration and one before the loop. *)
Theorem send_data_stalls_at_mtu_3 (fuel : nat) (data : list Z) (len : Z) (attr : nat)
    (c : conn) (s : state) :
  default_conn s = Some c ->
  m_mtu s = 3 ->
  0 < len <= 65535 ->
  (forall h f l p, stack h (bt_gatt_notify c attr f l p) = 0) ->
  exists s',
    send_data stack fuel data len attr s = Running s' /\
    issued s s' = replicate (S fuel) (bt_gatt_notify c attr 0 0 [], 0).
Proof.
  intros Hc Hmtu Hlen Hok.
  unfold send_data, issued. rewrite Hc, Hmtu.
  assert (Hmore : (len <=? 3 - MTU_OVERHEAD) = false)
    by (apply Z.leb_gt; unfold MTU_OVERHEAD; lia).
  rewrite Hmore. unfold invoke. rewrite Hok.
  change (u16 (3 - MTU_OVERHEAD)) with 0. rewrite Z.sub_0_r.
  rewrite u16_id by lia. rewrite view_empty.
  rewrite (send_loop_stalls c attr data len Hlen Hok).
  eexists. split; [reflexivity |].
  simpl. rewrite <- app_assoc. rewrite drop_app_length. reflexivity.
Qed.

Lemma fill_frame n :
  forall i s,
    same_link s (state_of (fill n i s)) /\
    calls (state_of (fill n i s)) = calls s /\
    length (m_msg_buffer (state_of (fill n i s))) = length (m_msg_buffer s).
Proof.
  induction n as [| n IH]; intros i s; simpl.
  - split; [apply same_link_refl | split; reflexivity].
  - destruct (i <? Z.of_nat (length (m_msg_buffer s))); simpl.
    + set (s1 := set_m_msg_idx_cnt _ _).
      destruct (IH (i + 1) s1) as (Hlink & Hcalls & Hlen).
      split; [eapply same_link_trans; [| exact Hlink]; unfold same_link; simpl; tauto |].
      split; [rewrite Hcalls; reflexivity |].
      rewrite Hlen. subst s1. simpl. apply length_insert.
    + split; [apply same_link_refl | split; reflexivity].
Qed.

Lemma notify_thread_frame s :
  same_link s (state_of (notify_thread stack s)) /\
  length (m_msg_buffer (state_of (notify_thread stack s))) = length (m_msg_buffer s).
Proof.
  unfold notify_thread.
  destruct (m_notif_enabled s && m_notif_send s).
  - set (n := Z.to_nat (size_t (m_mtu s - MTU_OVERHEAD))).
    pose proof (fill_frame n 0 s) as (Hlink & _ & Hlen).
    destruct (fill n 0 s) as [[] s1 | s1 | i s1]; simpl in *; try (split; assumption).
    match goal with
    | |- context [send_data stack ?fuel ?data ?len ?attr ?t] =>
        pose proof (send_data_vars fuel data len attr t) as Hvars;
        revert Hvars;
        destruct (send_data stack fuel data len attr t) as [e s3 | s3 | i s3];
        intros Hvars
    end;
      simpl in *;
      destruct Hvars as (V1 & V2 & V3 & V4 & V5 & V6 & V7 & V8);
      destruct Hlink as (L1 & L2 & L3 & L4 & L5 & L6);
      simpl in V1, V2, V3, V4, V5, V6, V7, V8;
      (split; [unfold same_link; intuition congruence | rewrite <- V7; exact Hlen]).
  - unfold invoke. simpl. split; [unfold same_link; simpl; tauto | reflexivity].
Qed.

(** X4.  A streaming turn taken while no connection is stored still
    completes: it calls nothing (no notification, and no sleep either), the
    buffer is overwritten with the next [m_mtu - 3] pattern bytes and the
    counter moves on as if they had been sent. *)
Theorem notify_thread_without_connection (s : state) :
  m_notif_enabled s = true -> m_notif_send s = true ->
  default_conn s = None ->
  3 <= m_mtu s <= CONFIG_BT_L2CAP_TX_MTU ->
  CONFIG_BT_L2CAP_TX_MTU <= 65535 ->
  length (m_msg_buffer s) = Z.to_nat (CONFIG_BT_L2CAP_TX_MTU - MTU_OVERHEAD) ->
  exists s',
    notify_thread stack s = Done tt s' /\
    calls s' = calls s /\
    take (Z.to_nat (m_mtu s - MTU_OVERHEAD)) (m_msg_buffer s')
    = fst (NextBuffer (Z.to_nat (m_mtu s - MTU_OVERHEAD)) (m_msg_idx_cnt s)) /\
    m_msg_idx_cnt s'
    = snd (NextBuffer (Z.to_nat (m_mtu s - MTU_OVERHEAD)) (m_msg_idx_cnt s)) /\
    (0 <= m_msg_idx_cnt s ->
     m_msg_idx_cnt s + (m_mtu s - MTU_OVERHEAD) <= 131070 ->
     m_msg_idx_cnt s' = m_msg_idx_cnt s + (m_mtu s - MTU_OVERHEAD)).
Proof.
  intros Hen Hsend Hnone Hmtu Hmax Hcap.
  destruct (notify_thread_streaming s Hen Hsend Hmtu Hmax Hcap)
    as (s' & Hrun & _ & Hbuf & Hcnt & Hcalls).
  rewrite Hnone, app_nil_r in Hcalls.
  exists s'. split; [exact Hrun |]. split; [exact Hcalls |].
  split.
  { rewrite Hbuf.
    replace (Z.to_nat (m_mtu s - MTU_OVERHEAD))
      with (length (fst (NextBuffer (Z.to_nat (m_mtu s - MTU_OVERHEAD)) (m_msg_idx_cnt s))))
      at 1 by (rewrite NextBuffer_bytes; apply generate_length).
    apply take_app_length. }
  split; [exact Hcnt |].
  intros Hlo Hhi. rewrite Hcnt, NextBuffer_counter.
  unfold MTU_OVERHEAD in *.
  rewrite generate_counter by lia. rewrite Z2Nat.id by lia.
  unfold wrap_counter. change (Z.shiftl UINT16_MAX 1) with 131070.
  destruct (131070 <? _) eqn:Hbig; [apply Z.ltb_lt in Hbig; lia | reflexivity].
Qed.

Lemma handle_link e s :
  (forall c hci_err, e <> Connect c hci_err) ->
  (forall c reason, e <> Disconnect c reason) ->
  (forall c tx rx, e <> MtuExchange c tx rx) ->
  m_mtu (state_of (handle CONFIG_BT_L2CAP_TX_MTU CONFIG_BT_DEVICE_NAME stack e s))
  = m_mtu s /\
  default_conn (state_of (handle CONFIG_BT_L2CAP_TX_MTU CONFIG_BT_DEVICE_NAME stack e s))
  = default_conn s.
Proof.
  intros Hc Hd Hm.
  destruct e as [c hci_err | c reason | c tx rx | value | buf |].
  - exfalso. eapply Hc. reflexivity.
  - exfalso. eapply Hd. reflexivity.
  - exfalso. eapply Hm. reflexivity.
  - simpl. auto.
  - simpl. unfold write_cmd_cb. run_monad.
    destruct (2 <=? _); [destruct (nth 0 buf 0 =? 1) |]; simpl; auto.
  - simpl. destruct (notify_thread_frame s) as ((_ & _ & _ & _ & H5 & H6) & _). auto.
Qed.

Lemma handle_flags e s :
  ((forall value, e <> CccWrite value) ->
   m_notif_enabled (state_of (handle CONFIG_BT_L2CAP_TX_MTU CONFIG_BT_DEVICE_NAME stack e s))
   = m_notif_enabled s) /\
  ((forall buf, e <> CmdWrite buf) ->
   m_notif_send (state_of (handle CONFIG_BT_L2CAP_TX_MTU CONFIG_BT_DEVICE_NAME stack e s))
   = m_notif_send s).
Proof.
  destruct e as [c hci_err | c reason | c tx rx | value | buf |].
  - simpl. unfold connected.
    destruct (negb (hci_err =? 0)).
    + destruct (hci_err =? BT_HCI_ERR_UNKNOWN_CONN_ID); simpl; auto.
    + run_monad. destruct (default_conn s); simpl; [auto |].
      unfold invoke. simpl. destruct (negb _); simpl; auto.
  - simpl. unfold disconnected. run_monad.
    destruct (default_conn s); simpl; unfold invoke; simpl;
      destruct (negb _); simpl; try rewrite adv_start_log; simpl; auto.
  - simpl. unfold mtu_updated. run_monad. destruct (_ <=? _); simpl; auto.
  - split; [intros H; exfalso; eapply H; reflexivity | intros _; reflexivity].
  - split; [| intros H; exfalso; eapply H; reflexivity].
    intros _. simpl. unfold write_cmd_cb. run_monad.
    destruct (2 <=? _); [destruct (nth 0 buf 0 =? 1) |]; reflexivity.
  - simpl. destruct (notify_thread_frame s) as ((_ & _ & H3 & H4 & _) & _).
    split; intros _; congruence.
Qed.

Lemma run_stops_or_steps e es s :
  run CONFIG_BT_L2CAP_TX_MTU CONFIG_BT_DEVICE_NAME stack (e :: es) s
  = handle CONFIG_BT_L2CAP_TX_MTU CONFIG_BT_DEVICE_NAME stack e s \/
  run CONFIG_BT_L2CAP_TX_MTU CONFIG_BT_DEVICE_NAME stack (e :: es) s
  = run CONFIG_BT_L2CAP_TX_MTU CONFIG_BT_DEVICE_NAME stack es
      (state_of (handle CONFIG_BT_L2CAP_TX_MTU CONFIG_BT_DEVICE_NAME stack e s)).
Proof.
  simpl. destruct (handle _ _ _ e s) as [[] s1 | s1 | i s1]; simpl; auto.
Qed.

(** X5.  The two flags are written by their own callbacks only.  Along any
    sequence of events without a CCC write the subscription flag keeps its
    value, and along any sequence without a command write the streaming flag
    keeps its value: neither a disconnect nor a new connection resets them,
    and the pump never does. *)
Theorem flags_survive_other_events (es : list event) (s : state) :
  (Forall (fun e => forall value, e <> CccWrite value) es ->
   m_notif_enabled
     (state_of (run CONFIG_BT_L2CAP_TX_MTU CONFIG_BT_DEVICE_NAME stack es s))
   = m_notif_enabled s) /\
  (Forall (fun e => forall buf, e <> CmdWrite buf) es ->
   m_notif_send
     (state_of (run CONFIG_BT_L2CAP_TX_MTU CONFIG_BT_DEVICE_NAME stack es s))
   = m_notif_send s).
Proof.
  revert s. induction es as [| e es IH]; intros s.
  - split; intros _; reflexivity.
  - destruct (handle_flags e s) as [Hen Hsend].
    destruct (IH (state_of (handle CONFIG_BT_L2CAP_TX_MTU CONFIG_BT_DEVICE_NAME stack e s)))
      as [IHen IHsend].
    split; intros Hes; inversion Hes as [| e' es' He Hrest]; subst;
      destruct (run_stops_or_steps e es s) as [Hstop | Hstep].
    + rewrite Hstop. apply Hen. exact He.
    + rewrite Hstep, IHen by exact Hrest. apply Hen. exact He.
    + rewrite Hstop. apply Hsend. exact He.
    + rewrite Hstep, IHsend by exact Hrest. apply Hsend. exact He.
Qed.

Lemma handle_pattern e s :
  e <> Pump \/ m_notif_enabled s && m_notif_send s = false ->
  m_msg_buffer (state_of (handle CONFIG_BT_L2CAP_TX_MTU CONFIG_BT_DEVICE_NAME stack e s))
  = m_msg_buffer s /\
  m_msg_idx_cnt (state_of (handle CONFIG_BT_L2CAP_TX_MTU CONFIG_BT_DEVICE_NAME stack e s))
  = m_msg_idx_cnt s.
Proof.
  intros Hquiet.
  destruct e as [c hci_err | c reason | c tx rx | value | buf |]; simpl.
  - pose proof (connected_mtu c hci_err s) as (_ & Hb & Hc).
    destruct (connected stack c hci_err s) as [[] t]. simpl in *. auto.
  - pose proof (disconnected_pattern c reason s) as (_ & Hb & Hc).
    destruct (disconnected _ stack c reason s) as [[] t]. simpl in *. auto.
  - unfold mtu_updated. run_monad. destruct (_ <=? _); simpl; auto.
  - auto.
  - unfold write_cmd_cb. run_monad.
    destruct (2 <=? _); [destruct (nth 0 buf 0 =? 1) |]; simpl; auto.
  - destruct Hquiet as [Hne | Hidle]; [contradiction |].
    rewrite notify_thread_idle by exact Hidle. simpl. auto.
Qed.

(** X6.  The message buffer and the pattern counter belong to the pump
    alone: along any sequence of callbacks (connects, disconnects, MTU
    exchanges, CCC and command writes, with whatever arguments) both stay
    exactly as they were, so the pattern carries on across connections. *)
Theorem pattern_untouched_by_callbacks (es : list event) (s : state) :
  Forall (fun e => e <> Pump) es ->
  m_msg_buffer (state_of (run CONFIG_BT_L2CAP_TX_MTU CONFIG_BT_DEVICE_NAME stack es s))
  = m_msg_buffer s /\
  m_msg_idx_cnt (state_of (run CONFIG_BT_L2CAP_TX_MTU CONFIG_BT_DEVICE_NAME stack es s))
  = m_msg_idx_cnt s.
Proof.
  intros Hes. revert s. induction Hes as [| e es He Hes IH]; intros s.
  - simpl. auto.
  - destruct (handle_pattern e s (or_introl He)) as [Hb Hc].
    destruct (run_stops_or_steps e es s) as [Hstop | Hstep].
    + rewrite Hstop. auto.
    + rewrite Hstep.
      destruct (IH (state_of (handle CONFIG_BT_L2CAP_TX_MTU CONFIG_BT_DEVICE_NAME
                                stack e s))) as [IHb IHc].
      rewrite IHb, IHc. auto.
Qed.

(** ** MTU tracking, whatever the stack reports *)

Lemma u16_range x : 0 <= u16 x <= 65535.
Proof. unfold u16. pose proof (Z.mod_pos_bound x (2 ^ 16) ltac:(lia)). lia. Qed.

(** X7.  Whatever TX size the stack reports (RX is ignored), with a
    configured maximum that fits 16 bits [mtu_updated] stores the smaller of
    the reported size and the configured maximum and changes nothing else;
    a later exchange replaces an earlier one completely. *)
Theorem mtu_updated_clamps (c : conn) (tx rx : Z) (s : state) :
  0 <= CONFIG_BT_L2CAP_TX_MTU <= 65535 ->
  snd (mtu_updated CONFIG_BT_L2CAP_TX_MTU c tx rx s)
  = set_m_mtu (Z.min (u16 tx) CONFIG_BT_L2CAP_TX_MTU) s /\
  (forall c' rx', snd (mtu_updated CONFIG_BT_L2CAP_TX_MTU c' tx rx' s)
                  = snd (mtu_updated CONFIG_BT_L2CAP_TX_MTU c tx rx s)) /\
  (forall c' tx' rx',
     snd (mtu_updated CONFIG_BT_L2CAP_TX_MTU c' tx' rx'
            (snd (mtu_updated CONFIG_BT_L2CAP_TX_MTU c tx rx s)))
     = snd (mtu_updated CONFIG_BT_L2CAP_TX_MTU c' tx' rx' s)).
Proof.
  intros Hmax.
  assert (Hstore : forall c0 tx0 rx0 t,
    snd (mtu_updated CONFIG_BT_L2CAP_TX_MTU c0 tx0 rx0 t)
    = set_m_mtu (Z.min (u16 tx0) CONFIG_BT_L2CAP_TX_MTU) t).
  { intros c0 tx0 rx0 t. unfold mtu_updated. run_monad.
    destruct (CONFIG_BT_L2CAP_TX_MTU <=? u16 tx0) eqn:Hclamp; simpl.
    - apply Z.leb_le in Hclamp. rewrite u16_id by lia.
      rewrite Z.min_r by lia. reflexivity.
    - apply Z.leb_gt in Hclamp. rewrite Z.min_l by lia. reflexivity. }
  split; [apply Hstore |]. split.
  - intros c' rx'. rewrite !Hstore. reflexivity.
  - intros c' tx' rx'. rewrite !Hstore. reflexivity.
Qed.

Lemma handle_mtu_upper e s :
  23 <= CONFIG_BT_L2CAP_TX_MTU <= 65535 ->
  0 <= m_mtu s <= CONFIG_BT_L2CAP_TX_MTU ->
  0 <= m_mtu (state_of (handle CONFIG_BT_L2CAP_TX_MTU CONFIG_BT_DEVICE_NAME stack e s))
  <= CONFIG_BT_L2CAP_TX_MTU.
Proof.
  intros Hmax Hs.
  destruct e as [c hci_err | c reason | c tx rx | value | buf |].
  - simpl. pose proof (connected_mtu c hci_err s) as (Hm & _).
    destruct (connected stack c hci_err s) as [[] t]. simpl in *. lia.
  - simpl. pose proof (disconnected_pattern c reason s) as (Hm & _).
    destruct (disconnected _ stack c reason s) as [[] t]. simpl in *. lia.
  - simpl. unfold mtu_updated. run_monad. pose proof (u16_range tx).
    destruct (CONFIG_BT_L2CAP_TX_MTU <=? u16 tx) eqn:Hclamp; simpl.
    + rewrite u16_id by lia. lia.
    + apply Z.leb_gt in Hclamp. lia.
  - rewrite (proj1 (handle_link (CccWrite value) s
                      ltac:(discriminate) ltac:(discriminate) ltac:(discriminate))).
    exact Hs.
  - rewrite (proj1 (handle_link (CmdWrite buf) s
                      ltac:(discriminate) ltac:(discriminate) ltac:(discriminate))).
    exact Hs.
  - rewrite (proj1 (handle_link Pump s
                      ltac:(discriminate) ltac:(discriminate) ltac:(discriminate))).
    exact Hs.
Qed.

(** X8.  The upper bound on the MTU needs no assumption on the events: with
    a configured maximum between 23 and 65535, after any sequence of events
    whatsoever from boot (conformant or not, run to completion or stopped in
    the pump) the MTU is a non-negative value of at most the configured
    maximum. *)
Theorem mtu_never_above_maximum (es : list event) :
  23 <= CONFIG_BT_L2CAP_TX_MTU <= 65535 ->
  0 <= m_mtu (state_of (run CONFIG_BT_L2CAP_TX_MTU CONFIG_BT_DEVICE_NAME stack es
                          (boot CONFIG_BT_L2CAP_TX_MTU CONFIG_BT_DEVICE_NAME stack)))
  <= CONFIG_BT_L2CAP_TX_MTU.
Proof.
  intros Hmax.
  assert (Hgen : forall s,
    0 <= m_mtu s <= CONFIG_BT_L2CAP_TX_MTU ->
    0 <= m_mtu (state_of (run CONFIG_BT_L2CAP_TX_MTU CONFIG_BT_DEVICE_NAME stack es s))
    <= CONFIG_BT_L2CAP_TX_MTU).
  { induction es as [| e es IH]; intros s Hs; [exact Hs |].
    pose proof (handle_mtu_upper e s Hmax Hs) as Hstep.
    destruct (run_stops_or_steps e es s) as [Hstop | Hnext].
    - rewrite Hstop. exact Hstep.
    - rewrite Hnext. apply IH. exact Hstep. }
  apply Hgen.
  destruct (boot_consistent ltac:(lia)) as (Hm & _). lia.
Qed.

Lemma fill_overrun n :
  forall i s,
    0 <= i <= Z.of_nat (length (m_msg_buffer s)) ->
    Z.of_nat (length (m_msg_buffer s)) - i < Z.of_nat n ->
    exists s', fill n i s = OutOfBounds (Z.of_nat (length (m_msg_buffer s))) s'.
Proof.
  induction n as [| n IH]; intros i s Hi Hn; [lia |].
  simpl.
  destruct (i <? Z.of_nat (length (m_msg_buffer s))) eqn:Hin.
  - apply Z.ltb_lt in Hin.
    set (s1 := set_m_msg_idx_cnt _ _).
    assert (Hlen : length (m_msg_buffer s1) = length (m_msg_buffer s))
      by (subst s1; simpl; apply length_insert).
    destruct (IH (i + 1) s1) as (s' & Hrun); [rewrite Hlen; lia | rewrite Hlen; lia |].
    exists s'. rewrite Hrun, Hlen. reflexivity.
  - apply Z.ltb_ge in Hin. exists s. f_equal. lia.
Qed.

(** X9.  Nothing in the pump guards the subtraction [m_mtu - 3].  If the MTU
    is below 3 (which takes an MTU exchange reporting less than 3) the length
    wraps around as a [size_t], and a streaming turn fills the whole buffer
    and then writes past its end: the first index out of bounds is the
    capacity of the buffer. *)
Theorem notify_thread_overruns_below_3 (s : state) :
  m_notif_enabled s = true -> m_notif_send s = true ->
  0 <= m_mtu s < 3 ->
  Z.of_nat (length (m_msg_buffer s)) <= 65532 ->
  size_t (m_mtu s - MTU_OVERHEAD) = 4294967296 + m_mtu s - 3 /\
  exists s',
    notify_thread stack s = OutOfBounds (Z.of_nat (length (m_msg_buffer s))) s'.
Proof.
  intros Hen Hsend Hmtu Hcap.
  assert (Hlen : size_t (m_mtu s - MTU_OVERHEAD) = 4294967296 + m_mtu s - 3).
  { unfold size_t, MTU_OVERHEAD.
    replace (m_mtu s - 3) with ((4294967296 + m_mtu s - 3) + (-1) * 2 ^ 32) by lia.
    rewrite Z.mod_add by lia. apply Z.mod_small. lia. }
  split; [exact Hlen |].
  unfold notify_thread. rewrite Hen, Hsend. simpl andb. cbv iota.
  rewrite Hlen.
  destruct (fill_overrun (Z.to_nat (4294967296 + m_mtu s - 3)) 0 s) as (s' & Hrun);
    [lia | lia |].
  exists s'. rewrite Hrun. reflexivity.
Qed.

(** ** The stream over several turns *)

Lemma notification_payloads_app h1 h2 :
  notification_payloads (h1 ++ h2) = notification_payloads h1 ++ notification_payloads h2.
Proof. unfold notification_payloads. apply omap_app. Qed.

(** X10.  While the counter stays below the wrap, the payloads of the
    notifications issued over [n] streaming turns at a fixed MTU, put end to
    end, are the pattern itself from the starting counter on: one
    notification per turn, nothing skipped or repeated between turns,
    whatever the stack answers to each of them (a refused notification is
    not sent again). *)
Theorem pump_stream_is_the_pattern (n : nat) (c : conn) :
  CONFIG_BT_L2CAP_TX_MTU <= 65535 ->
  forall s,
    m_notif_enabled s = true -> m_notif_send s = true ->
    default_conn s = Some c ->
    3 <= m_mtu s <= CONFIG_BT_L2CAP_TX_MTU ->
    length (m_msg_buffer s) = Z.to_nat (CONFIG_BT_L2CAP_TX_MTU - MTU_OVERHEAD) ->
    0 <= m_msg_idx_cnt s ->
    m_msg_idx_cnt s + Z.of_nat n * (m_mtu s - MTU_OVERHEAD) <= 131070 ->
    exists s' new,
      run CONFIG_BT_L2CAP_TX_MTU CONFIG_BT_DEVICE_NAME stack (replicate n Pump) s
      = Done tt s' /\
      calls s' = calls s ++ new /\
      length new = n /\
      concat (notification_payloads new)
      = fst (generate (n * Z.to_nat (m_mtu s - MTU_OVERHEAD)) (m_msg_idx_cnt s)) /\
      m_msg_idx_cnt s' = m_msg_idx_cnt s + Z.of_nat n * (m_mtu s - MTU_OVERHEAD).
Proof.
  intros Hmax. induction n as [| n IH]; intros s Hen Hsend Hc Hmtu Hcap Hlo Hhi.
  - exists s, []. simpl.
    split; [reflexivity |]. split; [rewrite app_nil_r; reflexivity |].
    split; [reflexivity |]. split; [reflexivity | lia].
  - destruct (notify_thread_streaming s Hen Hsend Hmtu Hmax Hcap)
      as (s1 & Hrun & Hlink & Hbuf & Hcnt & Hcalls).
    rewrite Hc in Hcalls. simpl in Hcalls.
    destruct Hlink as (_ & _ & H3 & H4 & H5 & H6).
    set (len := m_mtu s - MTU_OVERHEAD) in *.
    assert (Hlen : 0 <= len) by (unfold len, MTU_OVERHEAD; lia).
    assert (Hcnt1 : m_msg_idx_cnt s1 = m_msg_idx_cnt s + len).
    { rewrite Hcnt, NextBuffer_counter.
      rewrite generate_counter by lia. rewrite Z2Nat.id by lia.
      unfold wrap_counter. change (Z.shiftl UINT16_MAX 1) with 131070.
      destruct (131070 <? _) eqn:Hbig; [apply Z.ltb_lt in Hbig; lia | reflexivity]. }
    destruct (IH s1) as (s' & new & Hrun' & Hcalls' & Hnew & Hcat & Hcnt').
    { congruence. } { congruence. } { congruence. }
    { rewrite <- H5. exact Hmtu. }
    { rewrite Hbuf, length_app, length_drop, NextBuffer_bytes, generate_length.
      rewrite Hcap. fold len. unfold len, MTU_OVERHEAD in *. lia. }
    { lia. }
    { rewrite <- H5. fold len. lia. }
    rewrite <- H5 in Hcat, Hcnt'. fold len in Hcat, Hcnt'.
    eexists s', (_ :: new).
    split; [simpl; rewrite Hrun; exact Hrun' |].
    split; [rewrite Hcalls', Hcalls, <- app_assoc; reflexivity |].
    split; [simpl; rewrite Hnew; reflexivity |].
    split.
    + change (S n * Z.to_nat len)%nat with (Z.to_nat len + n * Z.to_nat len)%nat.
      rewrite generate_app. simpl fst.
      rewrite generate_counter by lia. rewrite Z2Nat.id by lia.
      rewrite <- Hcnt1, <- Hcat.
      rewrite NextBuffer_bytes. reflexivity.
    + rewrite Hcnt', Hcnt1. lia.
Qed.

(** ** Connection set-up, boot and the subscription flag *)


(** X12.  [main] returns 0 whether or not the stack comes up and changes no
    variable.  When [bt_enable] fails it calls nothing else: no callback or
    service is registered and advertising is not started.  When it succeeds
    it registers the GATT callbacks, then the service, then starts
    advertising, and goes on regardless of what these three return. *)
Theorem main_boot_sequence :
  fst (main CONFIG_BT_DEVICE_NAME stack (initial CONFIG_BT_L2CAP_TX_MTU)) = 0 /\
  same_vars (initial CONFIG_BT_L2CAP_TX_MTU)
    (boot CONFIG_BT_L2CAP_TX_MTU CONFIG_BT_DEVICE_NAME stack) /\
  (stack [] bt_enable <> 0 ->
   calls (boot CONFIG_BT_L2CAP_TX_MTU CONFIG_BT_DEVICE_NAME stack)
   = [(bt_enable, stack [] bt_enable)]) /\
  (stack [] bt_enable = 0 ->
   exists r1 r2 r3,
     calls (boot CONFIG_BT_L2CAP_TX_MTU CONFIG_BT_DEVICE_NAME stack)
     = [(bt_enable, 0); (bt_gatt_cb_register, r1); (bt_gatt_service_register, r2);
        (bt_le_adv_start adv_param (ad CONFIG_BT_DEVICE_NAME) sd, r3)]).
Proof.
  unfold boot, main. run_monad. unfold invoke. simpl.
  destruct (stack [] bt_enable =? 0) eqn:Hen; simpl.
  - apply Z.eqb_eq in Hen. rewrite adv_start_log. simpl.
    split; [reflexivity |]. split; [unfold same_vars; simpl; tauto |].
    split; [intros Hne; contradiction |].
    intros _. rewrite Hen. do 3 eexists. reflexivity.
  - apply Z.eqb_neq in Hen.
    split; [reflexivity |]. split; [unfold same_vars; simpl; tauto |].
    split; [intros _; reflexivity | intros H0; contradiction].
Qed.

(** X13.  The CCC callback looks at bit 0 of the written value only: the
    subscription flag becomes true exactly when the value is odd, so a value
    with only the indicate bit (2) clears it while 3 sets it, and no other
    variable changes. *)
Theorem notif_ccc_cb_follows_notify_bit (value : Z) (s : state) :
  snd (notif_ccc_cb value s) = set_m_notif_enabled (Z.odd value) s /\
  (m_notif_enabled (snd (notif_ccc_cb value s)) = true <-> value mod 2 = 1).
Proof.
  unfold notif_ccc_cb, put. simpl.
  change BT_GATT_CCC_NOTIFY with 1. rewrite land_1_mod.
  rewrite Zmod_odd.
  destruct (Z.odd value); simpl; split; try reflexivity; split; congruence.
Qed.

(** ** The pattern as the receiver reads it *)

Lemma pattern_byte_even cnt : cnt mod 2 = 0 -> pattern_byte cnt = (cnt / 2) mod 256.
Proof.
  intros Heven. unfold pattern_byte. rewrite land_1_mod, Heven. simpl.
  rewrite land_255_mod, Z.shiftr_div_pow2 by lia. change (2 ^ 1) with 2.
  unfold u8. change (2 ^ 8) with 256. apply Z.mod_mod. lia.
Qed.

Lemma pattern_byte_odd cnt : cnt mod 2 = 1 -> pattern_byte cnt = (cnt / 512) mod 256.
Proof.
  intros Hodd. unfold pattern_byte. rewrite land_1_mod, Hodd. simpl.
  rewrite land_255_mod, Z.shiftr_div_pow2 by lia. change (2 ^ 9) with 512.
  unfold u8. change (2 ^ 8) with 256. apply Z.mod_mod. lia.
Qed.

(** X14.  Every byte of the pattern is between 0 and 255, and two
    consecutive bytes starting at an even counter are the 16-bit number
    [cnt / 2] (modulo 65536), low byte first. *)
Theorem pattern_is_little_endian_sequence (cnt : Z) :
  cnt mod 2 = 0 ->
  0 <= pattern_byte cnt < 256 /\
  0 <= pattern_byte (cnt + 1) < 256 /\
  pattern_byte cnt + 256 * pattern_byte (cnt + 1) = (cnt / 2) mod 65536.
Proof.
  intros Heven.
  assert (Hodd : (cnt + 1) mod 2 = 1).
  { rewrite Z.add_mod, Heven by lia. reflexivity. }
  rewrite (pattern_byte_even cnt Heven), (pattern_byte_odd (cnt + 1) Hodd).
  pose proof (Z.mod_pos_bound (cnt / 2) 256 ltac:(lia)).
  pose proof (Z.mod_pos_bound ((cnt + 1) / 512) 256 ltac:(lia)).
  split; [lia |]. split; [lia |].
  assert (Hhalf : (cnt + 1) / 2 = cnt / 2).
  { pose proof (Z.div_mod cnt 2 ltac:(lia)) as Hd.
    symmetry. apply (Z.div_unique (cnt + 1) 2 (cnt / 2) 1); lia. }
  change 512 with (2 * 256). rewrite <- Z.div_div by lia. rewrite Hhalf.
  change 65536 with (256 * 256).
  rewrite Z.rem_mul_r by lia. reflexivity.
Qed.

(** X15.  The wrap after a buffer keeps the parity of the counter, so low
    and high bytes do not swap places, and it takes the 16-bit number
    [cnt / 2] the stream carries to its remainder modulo 65535. *)
Theorem wrap_counter_sequence_number (cnt : Z) :
  131070 < cnt < 4294967296 ->
  wrap_counter cnt = cnt mod 131070 /\
  wrap_counter cnt mod 2 = cnt mod 2 /\
  wrap_counter cnt / 2 = (cnt / 2) mod 65535.
Proof.
  intros Hcnt.
  assert (Hwrap : wrap_counter cnt = cnt mod 131070).
  { unfold wrap_counter. change (Z.shiftl UINT16_MAX 1) with 131070.
    assert (Hbig : (131070 <? cnt) = true) by (apply Z.ltb_lt; lia).
    rewrite Hbig.
    pose proof (Z.mod_pos_bound cnt 131070 ltac:(lia)).
    apply u32_id. lia. }
  split; [exact Hwrap |]. rewrite Hwrap.
  change 131070 with (2 * 65535). rewrite Z.rem_mul_r by lia.
  pose proof (Z.mod_pos_bound cnt 2 ltac:(lia)) as Hbit.
  set (b := (cnt / 2) mod 65535). set (m := cnt mod 2) in *.
  split.
  - replace (m + 2 * b) with (m + b * 2) by lia.
    rewrite Z.mod_add by lia. apply Z.mod_small. lia.
  - replace (m + 2 * b) with (m + b * 2) by lia.
    rewrite Z.div_add by lia. rewrite Z.div_small by lia. lia.
Qed.

(** ** A rejected connection and the stored one *)





End Callbacks.

(** ** The theorems at concrete inputs *)

Lemma write_cmd_cb_streaming_flag_witness :
  snd (write_cmd_cb [0x01; 0x00] 2 (pumping 23)) = set_m_notif_send false (pumping 23).
Proof.
  apply (write_cmd_cb_streaming_flag [0x01; 0x00] (pumping 23)).
  - simpl. lia.
  - reflexivity.
Defined.

Example write_cmd_cb_examples :
  m_notif_send (snd (write_cmd_cb [0x01; 0x01] 2 (linked 23))) = true /\
  m_notif_send (snd (write_cmd_cb [0x01; 0x00] 2 (pumping 23))) = false /\
  m_notif_send (snd (write_cmd_cb [0x02; 0x01] 2 (linked 23))) = false /\
  m_notif_send (snd (write_cmd_cb [0x02; 0x00] 2 (pumping 23))) = true /\
  m_notif_send (snd (write_cmd_cb [0x01] 1 (pumping 23))) = true /\
  fst (write_cmd_cb [0x01] 1 (pumping 23)) = 1.
Proof. repeat split; reflexivity. Qed.

Lemma connected_second_connection_rejected_witness :
  default_conn (linked 23) = Some 1%nat /\
  issued (linked 23) (snd (connected takes_all 2%nat 0 (linked 23)))
  = [(bt_conn_disconnect 2%nat BT_HCI_ERR_REMOTE_USER_TERM_CONN, 0)].
Proof.
  split; [reflexivity |].
  apply (connected_second_connection_rejected takes_all 2%nat 1%nat (linked 23)).
  reflexivity.
Defined.

Lemma disconnected_restarts_when_info_ok_witness :
  exists released info_err restart,
    issued (linked 23) (snd (disconnected [] takes_all 1%nat 0x13 (linked 23)))
    = released ++ [(bt_conn_get_info 1%nat, info_err)] ++ restart /\
    released = [(bt_conn_unref 1%nat, 0)] /\ info_err = 0 /\
    exists r, restart = [(bt_le_adv_start adv_param (ad []) sd, r)].
Proof.
  destruct (disconnected_restarts_when_info_ok 247 [] takes_all 1%nat 0x13 (linked 23))
    as (released & info_err & restart & _ & _ & Hlog & Hrel & _ & Hok & _ & _).
  exists released, info_err, restart.
  assert (Hreleased : released = [(bt_conn_unref 1%nat, 0)])
    by (apply (Hrel 1%nat); reflexivity).
  assert (Hinfo : info_err = 0).
  { subst released. vm_compute in Hlog. congruence. }
  split; [exact Hlog |]. split; [exact Hreleased |]. split; [exact Hinfo |].
  apply Hok. exact Hinfo.
Defined.

(** C5 as stated fails: when the connection-info query fails the disconnect
    callback returns without restarting advertising. *)
Lemma disconnected_no_restart_counterexample :
  issued (linked 23) (snd (disconnected [] info_query_fails 1%nat 0x13 (linked 23)))
  = [(bt_conn_unref 1%nat, 0); (bt_conn_get_info 1%nat, -22)] /\
  ~ (exists param a d r,
       In (bt_le_adv_start param a d, r)
          (issued (linked 23)
             (snd (disconnected [] info_query_fails 1%nat 0x13 (linked 23))))).
Proof.
  split; [reflexivity |].
  intros (param & a & d & r & Hin). vm_compute in Hin.
  destruct Hin as [H | [H | []]]; discriminate H.
Qed.

Lemma send_data_fragments_witness :
  exists s' frags,
    send_data takes_all 150 (replicate 150 0xAB) 150 3 (linked 64) = Done 0 s' /\
    issued (linked 64) s' = map (accepted 1%nat 3 (replicate 150 0xAB)) frags /\
    Z.of_nat (length frags) = 3 /\
    concat (map (fun fr => view (replicate 150 0xAB) (fst fr) (snd fr)) frags)
    = replicate 150 0xAB.
Proof.
  destruct (send_data_fragments 247 takes_all 150 (replicate 150 0xAB) 3 1%nat (linked 64))
    as (s' & frags & Hrun & _ & Hlog & Hcount & _ & _ & Hcat & _).
  - reflexivity.
  - simpl. lia.
  - lia.
  - simpl. lia.
  - intros h f l p. reflexivity.
  - simpl. lia.
  - exists s', frags.
    split; [exact Hrun |]. split; [exact Hlog |]. split; [exact Hcount | exact Hcat].
Defined.

Example send_data_150_bytes_mtu_64 :
  notification_sizes
    (issued (linked 64)
       (state_of (send_data takes_all 150 (replicate 150 0xAB) 150 3 (linked 64))))
  = [61; 61; 28].
Proof. reflexivity. Qed.

(** C3 as stated fails for the empty payload: ceil (0 / 20) is 0, and
    [send_data] issues one (empty) notification. *)
Lemma send_data_empty_payload_counterexample :
  send_data takes_all 0 [] 0 3 (linked 23)
  = Done 0 (set_calls [(bt_gatt_notify 1%nat 3 0 0 [], 0)] (linked 23)) /\
  ~ (Z.of_nat (length (issued (linked 23)
                         (state_of (send_data takes_all 0 [] 0 3 (linked 23)))))
     = ceil_div 0 (m_mtu (linked 23) - MTU_OVERHEAD)).
Proof.
  split; [reflexivity |]. vm_compute. discriminate.
Qed.

Lemma send_data_aborts_on_rejection_witness :
  send_data (refuses_at 1 (-12)) 50 (replicate 50 0xAB) 50 3 (linked 23)
  = Done (-12)
      (state_of (send_data (refuses_at 1 (-12)) 50 (replicate 50 0xAB) 50 3 (linked 23))) /\
  length (issued (linked 23)
            (state_of (send_data (refuses_at 1 (-12)) 50 (replicate 50 0xAB) 50 3
                         (linked 23)))) = 2%nat.
Proof.
  destruct (send_data_aborts_on_rejection (refuses_at 1 (-12)) 50 (replicate 50 0xAB)
              50 3 (linked 23) 1
              (bt_gatt_notify 1%nat 3 20 20 (replicate 20 0xAB)) (-12))
    as (Hret & Hlen & _).
  - reflexivity.
  - discriminate.
  - split; [exact Hret | exact Hlen].
Defined.

Example send_data_rejected_fragment_sizes :
  notification_sizes
    (issued (linked 23)
       (state_of (send_data (refuses_at 1 (-12)) 50 (replicate 50 0xAB) 50 3 (linked 23))))
  = [20; 20] /\
  notification_sizes
    (issued (linked 23)
       (state_of (send_data takes_all 50 (replicate 50 0xAB) 50 3 (linked 23))))
  = [20; 20; 10].
Proof. split; reflexivity. Qed.

Lemma mtu_stays_in_range_witness :
  exists s,
    run 247 [] takes_all
      [Connect 1%nat 0; MtuExchange 1%nat 512 512; CccWrite 1; CmdWrite [1; 1]; Pump;
       MtuExchange 1%nat 23 23; Pump; Disconnect 1%nat 0x13]
      (boot 247 [] takes_all) = Done tt s /\
    23 <= m_mtu s <= 247.
Proof.
  apply (mtu_stays_in_range 247 [] takes_all
           [Connect 1%nat 0; MtuExchange 1%nat 512 512; CccWrite 1; CmdWrite [1; 1]; Pump;
            MtuExchange 1%nat 23 23; Pump; Disconnect 1%nat 0x13]).
  - lia.
  - repeat constructor; simpl; lia.
Defined.

(** C4 as stated fails: nothing in [mtu_updated] keeps the MTU from going
    below 23 when the stack reports a smaller TX size. *)
Lemma mtu_below_23_counterexample :
  run 247 [] takes_all [Connect 1%nat 0; MtuExchange 1%nat 0 0] (boot 247 [] takes_all)
  = Done tt
      (state_of (run 247 [] takes_all [Connect 1%nat 0; MtuExchange 1%nat 0 0]
                   (boot 247 [] takes_all))) /\
  ~ (23 <= m_mtu (state_of (run 247 [] takes_all [Connect 1%nat 0; MtuExchange 1%nat 0 0]
                              (boot 247 [] takes_all))) <= 247).
Proof.
  split; [reflexivity |]. vm_compute. intros [H _]. apply H. reflexivity.
Qed.

Lemma notify_thread_within_buffer_witness :
  size_t (m_mtu (pumping 247) - MTU_OVERHEAD) = 244 /\
  (exists s', notify_thread takes_all (pumping 247) = Done tt s') /\
  (forall i s', notify_thread takes_all (pumping 247) <> OutOfBounds i s').
Proof.
  destruct (notify_thread_within_buffer 247 takes_all (pumping 247))
    as (Hlen & _ & _ & _ & _ & Hdone & Hsafe).
  - simpl. lia.
  - lia.
  - reflexivity.
  - reflexivity.
  - reflexivity.
  - split; [exact Hlen |]. split; [exact Hdone | exact Hsafe].
Defined.

(** The bounds test of the model is not idle: an MTU above the configured
    maximum runs the loop off the end of the buffer. *)
Example notify_thread_overrun :
  exists s', notify_thread takes_all (pumping 248) = OutOfBounds 244 s'.
Proof. eexists. vm_compute. reflexivity. Qed.

Lemma notify_thread_one_notification_witness :
  exists s' bytes r,
    notify_thread takes_all (pumping 23) = Done tt s' /\
    Z.of_nat (length bytes) = 20 /\
    issued (pumping 23) s' = [(bt_gatt_notify 1%nat 3 0 20 bytes, r)].
Proof.
  destruct (notify_thread_one_notification 247 takes_all 1%nat (pumping 23))
    as (s' & bytes & r & Hrun & _ & Hlen & _ & _ & _ & Hlog).
  - reflexivity.
  - reflexivity.
  - reflexivity.
  - simpl. lia.
  - lia.
  - reflexivity.
  - exists s', bytes, r.
    split; [exact Hrun |]. split; [exact Hlen | exact Hlog].
Defined.

(** ** The counter wrap *)

Lemma counter_131060_reached :
  exists s,
    run 247 [] takes_all (streaming_events (Z.to_nat 6553)) (boot 247 [] takes_all)
    = Done tt s /\
    consistent 247 s /\
    m_notif_enabled s = true /\ m_notif_send s = true /\ m_mtu s = 23 /\
    m_msg_idx_cnt s = 131060.
Proof.
  destruct (streaming_events_counter 247 [] takes_all (Z.to_nat 6553))
    as (s & Hrun & Hs & Hen & Hsend & Hmtu & Hcnt).
  - lia.
  - rewrite Z2Nat.id; lia.
  - exists s. rewrite Z2Nat.id in Hcnt by lia.
    split; [exact Hrun |]. split; [exact Hs |].
    split; [exact Hen |]. split; [exact Hsend |].
    split; [exact Hmtu | exact Hcnt].
Qed.

(** C1 at the failing input.  Counter 131060 is reached from boot by 6553
    streaming turns at the default MTU of 23.  From there two buffers of 20
    bytes are not the buffer of 40 bytes: the wrap after the first buffer
    takes the counter from 131080 to 10, where the pattern (period 131072)
    asks for 8, so byte 20 of the stream is 5 where the single buffer has
    4. *)
Theorem NextBuffer_discontinuity_at_wrap :
  (exists s,
     run 247 [] takes_all (streaming_events (Z.to_nat 6553)) (boot 247 [] takes_all)
     = Done tt s /\
     m_mtu s = 23 /\ m_msg_idx_cnt s = 131060) /\
  fst (NextBuffer 20 131060) ++ fst (NextBuffer 20 (snd (NextBuffer 20 131060)))
  <> fst (NextBuffer (20 + 20) 131060) /\
  nth 20 (fst (NextBuffer 20 131060)
            ++ fst (NextBuffer 20 (snd (NextBuffer 20 131060)))) 0 = 5 /\
  nth 20 (fst (NextBuffer (20 + 20) 131060)) 0 = 4.
Proof.
  split.
  { destruct counter_131060_reached as (s & Hrun & _ & _ & _ & Hmtu & Hcnt).
    exists s. auto. }
  split; [| split; reflexivity].
  intros Heq.
  apply (f_equal (fun l => nth 20 l 0)) in Heq.
  vm_compute in Heq. discriminate Heq.
Qed.

(** C2 at the failing input.  The streaming turn taken at counter 131060
    leaves the counter at 10, which is 131080 modulo 131070; modulo 131072 it
    would be 8.  The reduction happens above 131070 only, and 131071 goes
    to 1. *)
Theorem counter_reduced_modulo_131070 :
  (exists s s',
     run 247 [] takes_all (streaming_events (Z.to_nat 6553)) (boot 247 [] takes_all)
     = Done tt s /\
     m_msg_idx_cnt s = 131060 /\
     notify_thread takes_all s = Done tt s' /\
     m_msg_idx_cnt s' = 10) /\
  snd (NextBuffer 20 131060) = 10 /\
  (131060 + 20) mod 131072 = 8 /\
  (131060 + 20) mod 131070 = 10 /\
  wrap_counter 131070 = 131070 /\
  wrap_counter 131071 = 1.
Proof.
  split; [| repeat split; reflexivity].
  destruct counter_131060_reached as (s & Hrun & Hs & Hen & Hsend & Hmtu & Hcnt).
  destruct Hs as (_ & Hcap & _).
  destruct (notify_thread_streaming 247 takes_all s Hen Hsend)
    as (s' & Hturn & _ & _ & Hcnt' & _); [lia | lia | exact Hcap |].
  exists s, s'.
  split; [exact Hrun |]. split; [exact Hcnt |]. split; [exact Hturn |].
  rewrite Hcnt', Hmtu, Hcnt. reflexivity.
Qed.

(** ** Further properties at concrete inputs *)

Lemma send_data_only_notifies_witness :
  same_vars (linked 23)
    (state_of (send_data (refuses_at 1 (-12)) 50 (replicate 50 0xAB) 50 3 (linked 23))) /\
  send_data takes_all 50 (replicate 50 0xAB) 50 3 (set_default_conn None (linked 23))
  = Done (- ENODEV) (set_default_conn None (linked 23)).
Proof.
  split.
  - apply (send_data_only_notifies (refuses_at 1 (-12)) 50 (replicate 50 0xAB) 50 3
             (linked 23)).
  - apply (send_data_only_notifies takes_all 50 (replicate 50 0xAB) 50 3
             (set_default_conn None (linked 23))).
    reflexivity.
Defined.

Lemma send_data_delivers_prefix_witness :
  exists e s' sent,
    send_data (refuses_at 1 (-12)) 50 (replicate 50 0xAB)
      (Z.of_nat (length (replicate 50 0xAB))) 3 (linked 23) = Done e s' /\
    0 <= sent <= Z.of_nat (length (replicate 50 0xAB)) /\
    delivered (issued (linked 23) s') = take (Z.to_nat sent) (replicate 50 0xAB).
Proof.
  destruct (send_data_delivers_prefix (refuses_at 1 (-12)) 50 (replicate 50 0xAB) 3
              1%nat (linked 23))
    as (e & s' & sent & Hrun & Hsent & Hdel & _).
  - reflexivity.
  - simpl. lia.
  - simpl. lia.
  - simpl. lia.
  - exists e, s', sent. split; [exact Hrun |]. split; [exact Hsent | exact Hdel].
Defined.

Example send_data_refused_second_fragment :
  delivered
    (issued (linked 23)
       (state_of (send_data (refuses_at 1 (-12)) 50 (replicate 50 0xAB) 50 3 (linked 23))))
  = replicate 20 0xAB.
Proof. reflexivity. Qed.

Lemma send_data_stalls_at_mtu_3_witness :
  exists s',
    send_data takes_all 5 [1; 2] 2 3 (linked 3) = Running s' /\
    issued (linked 3) s' = replicate 6 (bt_gatt_notify 1%nat 3 0 0 [], 0).
Proof.
  apply (send_data_stalls_at_mtu_3 takes_all 5 [1; 2] 2 3 1%nat (linked 3)).
  - reflexivity.
  - reflexivity.
  - lia.
  - intros h f l p. reflexivity.
Defined.

Lemma notify_thread_without_connection_witness :
  exists s',
    notify_thread takes_all (set_default_conn None (pumping 23)) = Done tt s' /\
    calls s' = calls (set_default_conn None (pumping 23)) /\
    m_msg_idx_cnt s' = 20.
Proof.
  destruct (notify_thread_without_connection 247 takes_all
              (set_default_conn None (pumping 23)))
    as (s' & Hrun & Hcalls & _ & _ & Hcnt).
  - reflexivity.
  - reflexivity.
  - reflexivity.
  - simpl. lia.
  - lia.
  - reflexivity.
  - exists s'. split; [exact Hrun |]. split; [exact Hcalls |].
    rewrite Hcnt; [reflexivity | simpl; lia | simpl; unfold MTU_OVERHEAD; lia].
Defined.

Lemma flags_survive_other_events_witness :
  m_notif_enabled
    (state_of (run 247 [] takes_all [Disconnect 1%nat 0x13; Connect 2%nat 0; Pump]
                 (pumping 23))) = true /\
  m_notif_send
    (state_of (run 247 [] takes_all [Disconnect 1%nat 0x13; Connect 2%nat 0; Pump]
                 (pumping 23))) = true.
Proof.
  split.
  - apply (flags_survive_other_events 247 [] takes_all
             [Disconnect 1%nat 0x13; Connect 2%nat 0; Pump] (pumping 23)).
    repeat constructor; discriminate.
  - apply (flags_survive_other_events 247 [] takes_all
             [Disconnect 1%nat 0x13; Connect 2%nat 0; Pump] (pumping 23)).
    repeat constructor; discriminate.
Defined.

Lemma pattern_untouched_by_callbacks_witness :
  m_msg_idx_cnt
    (state_of (run 247 [] takes_all
                 [Disconnect 1%nat 0x13; Connect 2%nat 0; MtuExchange 2%nat 100 100;
                  CmdWrite [1; 0]; CccWrite 0]
                 (set_m_msg_idx_cnt 4242 (pumping 23)))) = 4242.
Proof.
  apply (pattern_untouched_by_callbacks 247 [] takes_all
           [Disconnect 1%nat 0x13; Connect 2%nat 0; MtuExchange 2%nat 100 100;
            CmdWrite [1; 0]; CccWrite 0]
           (set_m_msg_idx_cnt 4242 (pumping 23))).
  repeat constructor; discriminate.
Defined.

Lemma mtu_updated_clamps_witness :
  snd (mtu_updated 247 1%nat 512 23 (linked 23)) = set_m_mtu 247 (linked 23) /\
  snd (mtu_updated 247 1%nat 100 100 (snd (mtu_updated 247 1%nat 512 23 (linked 23))))
  = snd (mtu_updated 247 1%nat 100 100 (linked 23)).
Proof.
  split.
  - apply (mtu_updated_clamps 247 1%nat 512 23 (linked 23)). lia.
  - apply (mtu_updated_clamps 247 1%nat 512 23 (linked 23)). lia.
Defined.

Lemma mtu_never_above_maximum_witness :
  0 <= m_mtu (state_of (run 247 [] takes_all
                          [Connect 1%nat 0; MtuExchange 1%nat 70000 0; CccWrite 1;
                           MtuExchange 1%nat 1 1; CmdWrite [1; 1]; Pump]
                          (boot 247 [] takes_all)))
  <= 247.
Proof.
  apply (mtu_never_above_maximum 247 [] takes_all
           [Connect 1%nat 0; MtuExchange 1%nat 70000 0; CccWrite 1;
            MtuExchange 1%nat 1 1; CmdWrite [1; 1]; Pump]).
  lia.
Defined.

Lemma notify_thread_overruns_below_3_witness :
  size_t (m_mtu (pumping 2) - MTU_OVERHEAD) = 4294967296 + m_mtu (pumping 2) - 3 /\
  exists s',
    notify_thread takes_all (pumping 2)
    = OutOfBounds (Z.of_nat (length (m_msg_buffer (pumping 2)))) s'.
Proof.
  apply (notify_thread_overruns_below_3 takes_all (pumping 2)).
  - reflexivity.
  - reflexivity.
  - simpl. lia.
  - simpl. lia.
Defined.

Lemma pump_stream_is_the_pattern_witness :
  exists s' new,
    run 247 [] takes_all (replicate 3 Pump) (pumping 23) = Done tt s' /\
    calls s' = calls (pumping 23) ++ new /\
    length new = 3%nat /\
    concat (notification_payloads new)
    = fst (generate (3 * Z.to_nat (m_mtu (pumping 23) - MTU_OVERHEAD))
             (m_msg_idx_cnt (pumping 23))).
Proof.
  destruct (pump_stream_is_the_pattern 247 [] takes_all 3 1%nat ltac:(lia) (pumping 23))
    as (s' & new & Hrun & Hcalls & Hlen & Hcat & _).
  - reflexivity.
  - reflexivity.
  - reflexivity.
  - simpl. lia.
  - reflexivity.
  - simpl. lia.
  - simpl. unfold MTU_OVERHEAD. lia.
  - exists s', new. split; [exact Hrun |]. split; [exact Hcalls |].
    split; [exact Hlen | exact Hcat].
Defined.


Example connected_keeps_stale_mtu :
  m_mtu (snd (connected info_query_fails 2%nat 0 (set_default_conn None (linked 100))))
  = 100.
Proof. reflexivity. Qed.

Lemma main_boot_sequence_witness :
  calls (boot 247 [] (refuses_at 0 (-5))) = [(bt_enable, -5)] /\
  exists r1 r2 r3,
    calls (boot 247 [] takes_all)
    = [(bt_enable, 0); (bt_gatt_cb_register, r1); (bt_gatt_service_register, r2);
       (bt_le_adv_start adv_param (ad []) sd, r3)].
Proof.
  split.
  - apply (main_boot_sequence 247 [] (refuses_at 0 (-5))). discriminate.
  - apply (main_boot_sequence 247 [] takes_all). reflexivity.
Defined.

Lemma pattern_is_little_endian_sequence_witness :
  pattern_byte 131060 + 256 * pattern_byte (131060 + 1) = (131060 / 2) mod 65536.
Proof.
  apply (pattern_is_little_endian_sequence 131060). reflexivity.
Defined.

Lemma wrap_counter_sequence_number_witness :
  wrap_counter 131080 = 131080 mod 131070 /\
  wrap_counter 131080 mod 2 = 131080 mod 2 /\
  wrap_counter 131080 / 2 = (131080 / 2) mod 65535.
Proof.
  apply (wrap_counter_sequence_number 131080). lia.
Defined.

Lemma NextBuffer_continuity_without_wrap_witness :
  fst (NextBuffer 20 4000) ++ fst (NextBuffer 244 (snd (NextBuffer 20 4000)))
  = fst (NextBuffer (20 + 244) 4000).
Proof.
  apply (NextBuffer_continuity_without_wrap 20 244 4000).
  vm_compute. discriminate.
Defined.

Lemma counter_bounded_in_runs_witness :
  exists s,
    run 247 [] takes_all (streaming_events 30) (boot 247 [] takes_all) = Done tt s /\
    0 <= m_msg_idx_cnt s <= 131070.
Proof.
  apply (counter_bounded_in_runs 247 [] takes_all (streaming_events 30)).
  - lia.
  - repeat constructor.
Defined.



Module DiagnosticsFacts.

Import Stdlib.Strings.String.

(** X16.  [phy2str] names the four PHY codes 0, 1 (1M), 2 (2M) and 4 (coded)
    with four different strings, and answers [Unknown] for exactly the other
    values, such as 3, the 1M and 2M bits together. *)
Theorem phy2str_names (phy : Z) :
  (Diagnostics.phy2str phy = "Unknown"%string
   <-> phy <> 0 /\ phy <> Diagnostics.BT_GAP_LE_PHY_1M /\
       phy <> Diagnostics.BT_GAP_LE_PHY_2M /\ phy <> Diagnostics.BT_GAP_LE_PHY_CODED) /\
  (forall other,
     Diagnostics.phy2str phy = Diagnostics.phy2str other ->
     Diagnostics.phy2str phy <> "Unknown"%string ->
     phy = other).
Proof.
  unfold Diagnostics.phy2str, Diagnostics.BT_GAP_LE_PHY_1M,
    Diagnostics.BT_GAP_LE_PHY_2M, Diagnostics.BT_GAP_LE_PHY_CODED.
  split.
  - destruct (phy =? 0)%Z eqn:H0; [apply Z.eqb_eq in H0; split; [discriminate | lia] |].
    destruct (phy =? 1)%Z eqn:H1; [apply Z.eqb_eq in H1; split; [discriminate | lia] |].
    destruct (phy =? 2)%Z eqn:H2; [apply Z.eqb_eq in H2; split; [discriminate | lia] |].
    destruct (phy =? 4)%Z eqn:H4; [apply Z.eqb_eq in H4; split; [discriminate | lia] |].
    apply Z.eqb_neq in H0, H1, H2, H4. split; [intros _; lia | reflexivity].
  - intros other.
    destruct (phy =? 0)%Z eqn:H0; destruct (phy =? 1)%Z eqn:H1;
      destruct (phy =? 2)%Z eqn:H2; destruct (phy =? 4)%Z eqn:H4;
      destruct (other =? 0)%Z eqn:K0; destruct (other =? 1)%Z eqn:K1;
      destruct (other =? 2)%Z eqn:K2; destruct (other =? 4)%Z eqn:K4;
      intros Hsame Hknown; try discriminate Hsame; try contradiction;
      repeat match goal with
             | H : (_ =? _)%Z = true |- _ => apply Z.eqb_eq in H
             | H : (_ =? _)%Z = false |- _ => clear H
             end; lia.
Qed.

End DiagnosticsFacts.
